(** * RPC redundancy layer: streaming session, endpoint rotation, managers

    A shallow embedding of
    - [src/utils/managers/websocketManager.ts]        (module [Session]),
    - [src/utils/managers/websocketManagerFactory.ts] (module [Factory]),
    - [src/utils/managers/connectionManager.ts]       (module [Pool]),
    followed by the properties of the design document that concern them.

    Conventions of the embedding.
    - Objects are records, methods are functions that take the object and
      return the updated object (explicit state passing).
    - [EventEmitter.emit] is synchronous.  A session appends what it emits
      to its field [emitted]; the owner of the session reads that list and
      runs its listeners on it, in order.  The one listener that calls
      back into the session it listens to is the factory's, when it
      replaces the session: the events that can make it do so are the
      last a method emits (lemma [method_switchLast]), and the replaced
      session, which has lost its listeners, is dropped from the model.
    - Durations are JavaScript numbers; they are modelled by exact
      rationals ([Q]), counters by [nat], [Infinity] by a constructor.
    - Console output ([log]) changes no state and is left out.
    - The environment (the transport, the timers, [Math.random], the
      constructors of the libraries) appears as inputs of the model. *)

From Stdlib Require Import QArith Qminmax Lqa Qpower.
From stdpp Require Import gmap strings list.

(** How a call ends: with a value, or with an exception. *)
Inductive Completion (A : Type) : Type :=
| Returned (a : A)
| Thrown (msg : string).
Arguments Returned {A} a.
Arguments Thrown {A} msg.

(** [a || d] on a number option: [undefined] and [0] are falsy. *)
Definition orDefaultQ (o : option Q) (d : Q) : Q :=
  match o with
  | Some q => if Qeq_bool q 0 then d else q
  | None => d
  end.

Definition orDefaultNat (o : option nat) (d : nat) : nat :=
  match o with
  | Some 0 | None => d
  | Some n => n
  end.

(** ** The loop shared by the two [switchEndpoint] methods *)
Module Rotation.

(** [while (failed.has(nextIndex) && attemptCount < length)
       { nextIndex = (nextIndex + 1) % length; attemptCount++; }]
    with [budget = length - attemptCount]; both callers start it with
    [attemptCount = 0], that is [budget = length]. *)
Fixpoint skipFailed (failed : gset nat) (len budget nextIndex : nat) : nat :=
  match budget with
  | O => nextIndex
  | S b =>
      if decide (nextIndex ∈ failed)
      then skipFailed failed len b ((nextIndex + 1) mod len)
      else nextIndex
  end.

(** The part of [switchEndpoint] that both classes share: mark the
    current index failed, clear the set when it has grown to the size of
    the table, pick the next index.  Returns the new failed set, the new
    index, and whether the set was cleared. *)
Definition advance (len : nat) (failed : gset nat) (current : nat)
  : gset nat * nat * bool :=
  let failed1 := {[current]} ∪ failed in
  let nextIndex := (current + 1) mod len in
  let cleared := bool_decide (len ≤ size failed1) in
  let failed2 := if cleared then ∅ else failed1 in
  (failed2, skipFailed failed2 len len nextIndex, cleared).

End Rotation.

(** ** The streaming session: class [WebSocketManager] *)
Module Session.

Inductive ConnectionState : Set :=
| DISCONNECTED | CONNECTING | CONNECTED | RECONNECTING | ERROR.

#[global] Instance ConnectionState_eq_dec : EqDecision ConnectionState.
Proof. solve_decision. Defined.

(** [maxRetries] is a count or [Infinity]. *)
Inductive Limit : Set := Finite (n : nat) | Infinity.

(** [retryCount >= maxRetries] *)
Definition reached (count : nat) (lim : Limit) : bool :=
  match lim with
  | Finite n => n <=? count
  | Infinity => false
  end.

Record WebSocketManagerOptions : Type := {
  opt_url : string;
  opt_initialBackoff : option Q;
  opt_maxBackoff : option Q;
  opt_maxRetries : option Limit;
  opt_debug : option bool
}.

(** What the session emits to its listeners. *)
Inductive Event : Type :=
| EvOpen
| EvMessage (data : string)
| EvError (message : string)
| EvStateChange (st : ConnectionState)
| EvMaxRetriesReached.

(** The fields of the class, then the part of the environment the
    methods act on:
    - [ws] is the handle of the current socket, handles are numbered;
    - [reconnectTimer] is [Some delay] while the timer set by
      [attemptReconnect] is pending (a handle that has fired and one
      that was cleared are both [None]: [clearTimeout] on either does
      nothing);
    - [listening] are the sockets that still carry the listeners of
      [setupEventListeners];
    - [errorListeners] tells whether someone listens to the session's
      own [error] event: Node's [emit("error")] throws when nobody does;
    - [sent] are the payloads handed to [ws.send]. *)
Record WebSocketManager : Type := {
  ws : option nat;
  state : ConnectionState;
  retryCount : nat;
  backoffTime : Q;
  maxBackoff : Q;
  maxRetries : Limit;
  reconnectTimer : option Q;
  url : string;
  debug : bool;
  listening : gset nat;
  nextSocket : nat;
  errorListeners : bool;
  emitted : list Event;
  sent : list string
}.

Definition with_ws v s := {| ws := v; state := state s; retryCount := retryCount s;
  backoffTime := backoffTime s; maxBackoff := maxBackoff s; maxRetries := maxRetries s;
  reconnectTimer := reconnectTimer s; url := url s; debug := debug s;
  listening := listening s; nextSocket := nextSocket s;
  errorListeners := errorListeners s; emitted := emitted s; sent := sent s |}.
Definition with_state v s := {| ws := ws s; state := v; retryCount := retryCount s;
  backoffTime := backoffTime s; maxBackoff := maxBackoff s; maxRetries := maxRetries s;
  reconnectTimer := reconnectTimer s; url := url s; debug := debug s;
  listening := listening s; nextSocket := nextSocket s;
  errorListeners := errorListeners s; emitted := emitted s; sent := sent s |}.
Definition with_retryCount v s := {| ws := ws s; state := state s; retryCount := v;
  backoffTime := backoffTime s; maxBackoff := maxBackoff s; maxRetries := maxRetries s;
  reconnectTimer := reconnectTimer s; url := url s; debug := debug s;
  listening := listening s; nextSocket := nextSocket s;
  errorListeners := errorListeners s; emitted := emitted s; sent := sent s |}.
Definition with_backoffTime v s := {| ws := ws s; state := state s; retryCount := retryCount s;
  backoffTime := v; maxBackoff := maxBackoff s; maxRetries := maxRetries s;
  reconnectTimer := reconnectTimer s; url := url s; debug := debug s;
  listening := listening s; nextSocket := nextSocket s;
  errorListeners := errorListeners s; emitted := emitted s; sent := sent s |}.
Definition with_reconnectTimer v s := {| ws := ws s; state := state s; retryCount := retryCount s;
  backoffTime := backoffTime s; maxBackoff := maxBackoff s; maxRetries := maxRetries s;
  reconnectTimer := v; url := url s; debug := debug s;
  listening := listening s; nextSocket := nextSocket s;
  errorListeners := errorListeners s; emitted := emitted s; sent := sent s |}.
Definition with_listening v n s := {| ws := ws s; state := state s; retryCount := retryCount s;
  backoffTime := backoffTime s; maxBackoff := maxBackoff s; maxRetries := maxRetries s;
  reconnectTimer := reconnectTimer s; url := url s; debug := debug s;
  listening := v; nextSocket := n;
  errorListeners := errorListeners s; emitted := emitted s; sent := sent s |}.
Definition with_errorListeners v s := {| ws := ws s; state := state s; retryCount := retryCount s;
  backoffTime := backoffTime s; maxBackoff := maxBackoff s; maxRetries := maxRetries s;
  reconnectTimer := reconnectTimer s; url := url s; debug := debug s;
  listening := listening s; nextSocket := nextSocket s;
  errorListeners := v; emitted := emitted s; sent := sent s |}.
Definition with_emitted v s := {| ws := ws s; state := state s; retryCount := retryCount s;
  backoffTime := backoffTime s; maxBackoff := maxBackoff s; maxRetries := maxRetries s;
  reconnectTimer := reconnectTimer s; url := url s; debug := debug s;
  listening := listening s; nextSocket := nextSocket s;
  errorListeners := errorListeners s; emitted := v; sent := sent s |}.
Definition with_sent v s := {| ws := ws s; state := state s; retryCount := retryCount s;
  backoffTime := backoffTime s; maxBackoff := maxBackoff s; maxRetries := maxRetries s;
  reconnectTimer := reconnectTimer s; url := url s; debug := debug s;
  listening := listening s; nextSocket := nextSocket s;
  errorListeners := errorListeners s; emitted := emitted s; sent := v |}.

(** [constructor(options)] *)
Definition new (options : WebSocketManagerOptions) : WebSocketManager := {|
  ws := None;
  state := DISCONNECTED;
  retryCount := 0;
  backoffTime := orDefaultQ (opt_initialBackoff options) 1000;
  maxBackoff := orDefaultQ (opt_maxBackoff options) 30000;
  maxRetries := match opt_maxRetries options with
                | Some (Finite 0) | None => Infinity
                | Some l => l
                end;
  reconnectTimer := None;
  url := opt_url options;
  debug := match opt_debug options with Some b => b | None => false end;
  listening := ∅;
  nextSocket := 0;
  errorListeners := false;
  emitted := [];
  sent := []
|}.

(** [getState()] *)
Definition getState (s : WebSocketManager) : ConnectionState := state s.

(** [this.emit(event)] for the events that cannot throw. *)
Definition emit (e : Event) (s : WebSocketManager) : WebSocketManager :=
  with_emitted (emitted s ++ [e]) s.

(** [setState(state)] *)
Definition setState (st : ConnectionState) (s : WebSocketManager) : WebSocketManager :=
  if decide (state s = st) then s
  else emit (EvStateChange st) (with_state st s).

(** [handleError(error)]: the flag tells whether [emit("error")] threw
    because the session has no [error] listener. *)
Definition handleError (message : string) (s : WebSocketManager)
  : bool * WebSocketManager :=
  let s1 := setState ERROR s in
  (negb (errorListeners s1), emit (EvError message) s1).

(** [cleanUp()]: the timer is cleared, the listeners are taken off the
    socket, the handle is dropped.  [ws.close()] acts on the transport
    only: the socket has no listener left to report it. *)
Definition cleanUp (s : WebSocketManager) : WebSocketManager :=
  let s1 := with_reconnectTimer None s in
  match ws s1 with
  | Some k => with_ws None (with_listening (listening s1 ∖ {[k]}) (nextSocket s1) s1)
  | None => s1
  end.

Section Environment.

(** [new WebSocket(url)] returns a socket or throws: [None] when it
    succeeds, [Some message] when it throws. *)
Variable socketRefused : string -> option string.

(** [connect()] *)
Definition connect (s : WebSocketManager) : Completion unit * WebSocketManager :=
  if decide (state s = CONNECTING ∨ state s = CONNECTED) then (Returned tt, s)
  else
    let s1 := setState CONNECTING s in
    match socketRefused (url s1) with
    | None =>
        let k := nextSocket s1 in
        (Returned tt, with_ws (Some k) (with_listening ({[k]} ∪ listening s1) (S k) s1))
    | Some message =>
        let '(threw, s2) := handleError message s1 in
        (if threw then Thrown message else Returned tt, s2)
    end.

(** [send(data)]; [refused] is what [ws.send] (or [JSON.stringify])
    does with this payload: [None] when it goes through, [Some message]
    when it throws. *)
Definition send (data : string) (refused : option string) (s : WebSocketManager)
  : Completion bool * WebSocketManager :=
  if decide (state s ≠ CONNECTED ∨ ws s = None) then (Returned false, s)
  else
    match refused with
    | None => (Returned true, with_sent (sent s ++ [data]) s)
    | Some message =>
        let '(threw, s1) := handleError message s in
        (if threw then Thrown message else Returned false, s1)
    end.

(** [disconnect()] *)
Definition disconnect (s : WebSocketManager) : Completion unit * WebSocketManager :=
  (Returned tt, setState DISCONNECTED (cleanUp s)).

(** [attemptReconnect()]; [random] is the value of [Math.random()]. *)
Definition attemptReconnect (random : Q) (s : WebSocketManager) : WebSocketManager :=
  if reached (retryCount s) (maxRetries s)
  then emit EvMaxRetriesReached (setState DISCONNECTED s)
  else
    let s1 := setState RECONNECTING s in
    let s2 := with_retryCount (S (retryCount s1)) s1 in
    let jitter := (random * 0.3 + 0.85)%Q in
    let delay := Qmin (backoffTime s2 * jitter) (maxBackoff s2) in
    with_reconnectTimer (Some delay) s2.

(** The callback of the reconnect timer: [this.connect()], then the
    escalation of [backoffTime] (skipped when [connect] throws). *)
Definition onTimer (s : WebSocketManager) : WebSocketManager :=
  match connect s with
  | (Returned _, s1) => with_backoffTime (Qmin (backoffTime s1 * 1.5) (maxBackoff s1)) s1
  | (Thrown _, s1) => s1
  end.

(** The four listeners of [setupEventListeners]. *)
Definition onOpen (s : WebSocketManager) : WebSocketManager :=
  let s1 := setState CONNECTED s in
  let s2 := with_retryCount 0 s1 in
  let s3 := with_backoffTime 1000 s2 in
  emit EvOpen s3.

Definition onMessage (data : string) (s : WebSocketManager) : WebSocketManager :=
  emit (EvMessage data) s.

Definition onError (message : string) (s : WebSocketManager) : WebSocketManager :=
  snd (handleError message s).

Definition onClose (random : Q) (s : WebSocketManager) : WebSocketManager :=
  let s1 := cleanUp s in
  if decide (state s1 ≠ DISCONNECTED) then attemptReconnect random s1 else s1.

(** What the environment does to a session. *)
Inductive Input : Type :=
| SocketOpen (k : nat)
| SocketMessage (k : nat) (data : string)
| SocketError (k : nat) (message : string)
| SocketClose (k : nat) (random : Q)
| TimerFires.

(** A socket event reaches a listener only while the socket carries
    the listeners; the timer callback runs only while the timer is
    pending. *)
Definition react (i : Input) (s : WebSocketManager) : WebSocketManager :=
  match i with
  | SocketOpen k => if decide (k ∈ listening s) then onOpen s else s
  | SocketMessage k data => if decide (k ∈ listening s) then onMessage data s else s
  | SocketError k message => if decide (k ∈ listening s) then onError message s else s
  | SocketClose k random => if decide (k ∈ listening s) then onClose random s else s
  | TimerFires =>
      match reconnectTimer s with
      | Some _ => onTimer (with_reconnectTimer None s)
      | None => s
      end
  end.

End Environment.

End Session.

(** ** The streaming manager: class [WebSocketManagerFactory] *)
Module Factory.
Import Session.

(** [private maxPrimaryFailCount: number = 3], never assigned again. *)
Definition maxPrimaryFailCount : nat := 3.

(** The fields of the class; [out] are the events the factory has
    emitted to its own subscribers, oldest first, and [switches] counts
    the calls of [switchEndpoint] (both are instruments of the model).
    The session in [wsManager] is stored with an empty [emitted] list:
    what it emits is handed to the listeners below at once. *)
Record WebSocketManagerFactory : Type := {
  wssEndpoints : list string;
  currentEndpointIndex : nat;
  wsManager : option WebSocketManager;
  options : WebSocketManagerOptions;
  failedEndpoints : gset nat;
  isReconnecting : bool;
  primaryFailCount : nat;
  out : list Event;
  switches : nat
}.

Definition with_currentEndpointIndex v f := {| wssEndpoints := wssEndpoints f;
  currentEndpointIndex := v; wsManager := wsManager f; options := options f;
  failedEndpoints := failedEndpoints f; isReconnecting := isReconnecting f;
  primaryFailCount := primaryFailCount f; out := out f; switches := switches f |}.
Definition with_wsManager v f := {| wssEndpoints := wssEndpoints f;
  currentEndpointIndex := currentEndpointIndex f; wsManager := v; options := options f;
  failedEndpoints := failedEndpoints f; isReconnecting := isReconnecting f;
  primaryFailCount := primaryFailCount f; out := out f; switches := switches f |}.
Definition with_failedEndpoints v f := {| wssEndpoints := wssEndpoints f;
  currentEndpointIndex := currentEndpointIndex f; wsManager := wsManager f; options := options f;
  failedEndpoints := v; isReconnecting := isReconnecting f;
  primaryFailCount := primaryFailCount f; out := out f; switches := switches f |}.
Definition with_isReconnecting v f := {| wssEndpoints := wssEndpoints f;
  currentEndpointIndex := currentEndpointIndex f; wsManager := wsManager f; options := options f;
  failedEndpoints := failedEndpoints f; isReconnecting := v;
  primaryFailCount := primaryFailCount f; out := out f; switches := switches f |}.
Definition with_primaryFailCount v f := {| wssEndpoints := wssEndpoints f;
  currentEndpointIndex := currentEndpointIndex f; wsManager := wsManager f; options := options f;
  failedEndpoints := failedEndpoints f; isReconnecting := isReconnecting f;
  primaryFailCount := v; out := out f; switches := switches f |}.
Definition with_out v f := {| wssEndpoints := wssEndpoints f;
  currentEndpointIndex := currentEndpointIndex f; wsManager := wsManager f; options := options f;
  failedEndpoints := failedEndpoints f; isReconnecting := isReconnecting f;
  primaryFailCount := primaryFailCount f; out := v; switches := switches f |}.
Definition with_switches v f := {| wssEndpoints := wssEndpoints f;
  currentEndpointIndex := currentEndpointIndex f; wsManager := wsManager f; options := options f;
  failedEndpoints := failedEndpoints f; isReconnecting := isReconnecting f;
  primaryFailCount := primaryFailCount f; out := out f; switches := v |}.

(** [getCurrentEndpoint()]: [None] stands for [undefined]. *)
Definition getCurrentEndpoint (f : WebSocketManagerFactory) : option string :=
  wssEndpoints f !! currentEndpointIndex f.

(** [this.emit(...)] of the factory: the event is recorded in [out].
    (Node throws on [emit("error")] when nobody subscribes to [error];
    the factory is taken to have such a subscriber, as its caller in
    this repository provides.) *)
Definition emit (e : Event) (f : WebSocketManagerFactory) : WebSocketManagerFactory :=
  with_out (out f ++ [e]) f.

(** The session options [{ url: endpoint, ...this.options }]. *)
Definition sessionOptions (endpoint : string) (o : WebSocketManagerOptions)
  : WebSocketManagerOptions :=
  {| opt_url := endpoint; opt_initialBackoff := opt_initialBackoff o;
     opt_maxBackoff := opt_maxBackoff o; opt_maxRetries := opt_maxRetries o;
     opt_debug := opt_debug o |}.

Section Environment.

Variable socketRefused : string -> option string.

Section Listeners.

(** [createWebSocketManager], for the calls made from inside the
    listeners (the knot is tied below). *)
Variable create : WebSocketManagerFactory -> option WebSocketManagerFactory.

(** [switchEndpoint()] *)
Definition switchEndpoint (f : WebSocketManagerFactory)
  : option WebSocketManagerFactory :=
  let '(failed, nextIndex, cleared) :=
    Rotation.advance (length (wssEndpoints f)) (failedEndpoints f)
                     (currentEndpointIndex f) in
  let f1 := with_isReconnecting false (with_failedEndpoints failed f) in
  let f2 := if cleared then with_primaryFailCount 0 f1 else f1 in
  let f3 := with_currentEndpointIndex nextIndex f2 in
  create (with_switches (S (switches f3)) f3).

(** [handleConnectionError(error)]; the flag of the result tells
    whether the session was replaced. *)
Definition handleConnectionError (message : string) (f : WebSocketManagerFactory)
  : option (WebSocketManagerFactory * bool) :=
  let f1 := emit (EvError message) f in
  if decide (currentEndpointIndex f1 = 0) then
    let f2 := with_primaryFailCount (S (primaryFailCount f1)) f1 in
    if decide (maxPrimaryFailCount ≤ primaryFailCount f2 ∧ 1 < length (wssEndpoints f2))
    then f3 ← switchEndpoint f2; Some (f3, true)
    else Some (f2, false)
  else Some (f1, false).

(** The [state_change] listener. *)
Definition onStateChange (st : ConnectionState) (f : WebSocketManagerFactory)
  : option (WebSocketManagerFactory * bool) :=
  if decide (st = RECONNECTING ∧ isReconnecting f = false) then
    let f1 := with_isReconnecting true f in
    if decide (currentEndpointIndex f1 = 0) then
      let f2 := with_primaryFailCount (S (primaryFailCount f1)) f1 in
      if decide (maxPrimaryFailCount ≤ primaryFailCount f2)
      then f3 ← switchEndpoint f2; Some (f3, true)
      else Some (emit (EvStateChange st) f2, false)
    else Some (emit (EvStateChange st) f1, false)
  else if decide (st = CONNECTED)
  then Some (emit (EvStateChange st) (with_isReconnecting false f), false)
  else Some (emit (EvStateChange st) f, false).

(** The listeners of [setupEventListeners], by event.  Nobody
    listens to [max_retries_reached]. *)
Definition listener (e : Event) (f : WebSocketManagerFactory)
  : option (WebSocketManagerFactory * bool) :=
  match e with
  | EvOpen => Some (with_primaryFailCount 0 (emit EvOpen f), false)
  | EvMessage data => Some (emit (EvMessage data) f, false)
  | EvError message => handleConnectionError message f
  | EvStateChange st => onStateChange st f
  | EvMaxRetriesReached => Some (f, false)
  end.

(** The events a session emits during one of its methods reach the
    listeners in order.  When a listener replaces the session
    ([createWebSocketManager] removes the listeners of the old one
    first), what the old session emits afterwards reaches nobody. *)
Fixpoint deliver (events : list Event) (f : WebSocketManagerFactory)
  : option WebSocketManagerFactory :=
  match events with
  | [] => Some f
  | e :: rest =>
      match listener e f with
      | Some (f1, true) => Some f1
      | Some (f1, false) => deliver rest f1
      | None => None
      end
  end.

(** Run a method of the current session (written as the function
    from its state before to its state after) and the listeners on
    what it emits. *)
Definition drive (method : WebSocketManager -> WebSocketManager)
    (f : WebSocketManagerFactory) : option WebSocketManagerFactory :=
  match wsManager f with
  | Some s =>
      let s1 := method s in
      deliver (emitted s1) (with_wsManager (Some (with_emitted [] s1)) f)
  | None => Some f
  end.

End Listeners.

(** [createWebSocketManager()].  The old session loses its listeners
    and is disconnected; it is not part of the factory any more.  The
    new one gets the listeners ([setupEventListeners], among them one
    for [error]) and is connected.  [fuel] bounds the nesting of
    [createWebSocketManager] inside its own listeners; [None] means it
    ran out. *)
Fixpoint createWebSocketManager (fuel : nat) (f : WebSocketManagerFactory)
  : option WebSocketManagerFactory :=
  match fuel with
  | O => None
  | S fuel' =>
      let endpoint := default "undefined"%string (wssEndpoints f !! currentEndpointIndex f) in
      let s := with_errorListeners true (Session.new (sessionOptions endpoint (options f))) in
      drive (createWebSocketManager fuel')
            (fun s => snd (Session.connect socketRefused s))
            (with_wsManager (Some s) f)
  end.

(** Two levels are enough (lemma [createWebSocketManager_spec]). *)
Definition fuel : nat := 2.

(** [constructor(wssEndpoints, options)] *)
Definition new (endpoints : list string) (o : WebSocketManagerOptions)
  : Completion (option WebSocketManagerFactory) :=
  match endpoints with
  | [] => Thrown "No WebSocket endpoints provided"
  | _ =>
      Returned (createWebSocketManager fuel
        {| wssEndpoints := endpoints; currentEndpointIndex := 0; wsManager := None;
           options := o; failedEndpoints := ∅; isReconnecting := false;
           primaryFailCount := 0; out := []; switches := 0 |})
  end.

(** The calls on a factory: its public methods, and what the
    environment does to its current session.  [disconnect()] also drops
    the subscribers of the factory ([removeAllListeners]); the model does
    not list subscribers, [out] keeps recording what is emitted. *)
Inductive Call : Type :=
| CallGetWebSocketManager
| CallSend (data : string) (refused : option string)
| CallConnect
| CallDisconnect
| FromSession (i : Session.Input).

Definition step (c : Call) (f : WebSocketManagerFactory)
  : option WebSocketManagerFactory :=
  let create := createWebSocketManager fuel in
  match c with
  | CallGetWebSocketManager =>
      match wsManager f with
      | None => create f
      | Some _ => Some f
      end
  | CallSend data refused =>
      drive create (fun s => snd (Session.send data refused s)) f
  | CallConnect =>
      match wsManager f with
      | None => create f
      | Some _ => drive create (fun s => snd (Session.connect socketRefused s)) f
      end
  | CallDisconnect =>
      drive create (fun s => snd (Session.disconnect s)) f
  | FromSession i =>
      drive create (Session.react socketRefused i) f
  end.


Definition send (data : string) (refused : option string) (f : WebSocketManagerFactory)
  : Completion bool :=
  match wsManager f with
  | None => Returned false
  | Some s => fst (Session.send data refused s)
  end.

End Environment.

End Factory.

(** ** The request pool: class [ConnectionManager] *)
Module Pool.

Inductive ConnectionState : Set :=
| CONNECTING | CONNECTED | FAILED | SWITCHING.

#[global] Instance ConnectionState_eq_dec : EqDecision ConnectionState.
Proof. solve_decision. Defined.

Record ConnectionManagerConfig : Type := {
  cfg_httpsEndpoints : list string;
  cfg_defaultCommitment : option string;
  cfg_debug : option bool;
  cfg_retryDelay : option Q;
  cfg_maxRetries : option nat;
  cfg_healthCheckInterval : option Q
}.

(** The client of [@solana/web3.js]: an object built by
    [new Connection(endpoint, commitment)]. *)
Record Connection : Type := {
  rpcEndpoint : string;
  commitment : string
}.

Inductive Event : Type :=
| EvStateChange (st : ConnectionState)
| EvConnected (endpoint : string)
| EvConnectionFailure (message : string).

(** The fields of the class, then the environment:
    - [healthCheckIntervalId] is [true] while the interval runs;
    - [probes] are the [testConnection()] promises of [connect] that
      have not resolved yet, each with the [endpoint] its callback has
      captured;
    - [retryTimers] counts the pending [setTimeout] of
      [handleConnectionFailure]. *)
Record ConnectionManager : Type := {
  httpsEndpoints : list string;
  currentEndpointIndex : nat;
  connection : option Connection;
  state : ConnectionState;
  defaultCommitment : string;
  debug : bool;
  retryDelay : Q;
  maxRetries : nat;
  currentRetries : nat;
  healthCheckIntervalId : bool;
  healthCheckInterval : Q;
  lastTimeUsed : Q;
  failedEndpoints : gset nat;
  probes : list string;
  retryTimers : nat;
  emitted : list Event
}.

Definition with_currentEndpointIndex v m := {| httpsEndpoints := httpsEndpoints m;
  currentEndpointIndex := v; connection := connection m; state := state m;
  defaultCommitment := defaultCommitment m; debug := debug m; retryDelay := retryDelay m;
  maxRetries := maxRetries m; currentRetries := currentRetries m;
  healthCheckIntervalId := healthCheckIntervalId m;
  healthCheckInterval := healthCheckInterval m; lastTimeUsed := lastTimeUsed m;
  failedEndpoints := failedEndpoints m; probes := probes m;
  retryTimers := retryTimers m; emitted := emitted m |}.
Definition with_connection v m := {| httpsEndpoints := httpsEndpoints m;
  currentEndpointIndex := currentEndpointIndex m; connection := v; state := state m;
  defaultCommitment := defaultCommitment m; debug := debug m; retryDelay := retryDelay m;
  maxRetries := maxRetries m; currentRetries := currentRetries m;
  healthCheckIntervalId := healthCheckIntervalId m;
  healthCheckInterval := healthCheckInterval m; lastTimeUsed := lastTimeUsed m;
  failedEndpoints := failedEndpoints m; probes := probes m;
  retryTimers := retryTimers m; emitted := emitted m |}.
Definition with_state v m := {| httpsEndpoints := httpsEndpoints m;
  currentEndpointIndex := currentEndpointIndex m; connection := connection m; state := v;
  defaultCommitment := defaultCommitment m; debug := debug m; retryDelay := retryDelay m;
  maxRetries := maxRetries m; currentRetries := currentRetries m;
  healthCheckIntervalId := healthCheckIntervalId m;
  healthCheckInterval := healthCheckInterval m; lastTimeUsed := lastTimeUsed m;
  failedEndpoints := failedEndpoints m; probes := probes m;
  retryTimers := retryTimers m; emitted := emitted m |}.
Definition with_currentRetries v m := {| httpsEndpoints := httpsEndpoints m;
  currentEndpointIndex := currentEndpointIndex m; connection := connection m; state := state m;
  defaultCommitment := defaultCommitment m; debug := debug m; retryDelay := retryDelay m;
  maxRetries := maxRetries m; currentRetries := v;
  healthCheckIntervalId := healthCheckIntervalId m;
  healthCheckInterval := healthCheckInterval m; lastTimeUsed := lastTimeUsed m;
  failedEndpoints := failedEndpoints m; probes := probes m;
  retryTimers := retryTimers m; emitted := emitted m |}.
Definition with_healthCheckIntervalId v m := {| httpsEndpoints := httpsEndpoints m;
  currentEndpointIndex := currentEndpointIndex m; connection := connection m; state := state m;
  defaultCommitment := defaultCommitment m; debug := debug m; retryDelay := retryDelay m;
  maxRetries := maxRetries m; currentRetries := currentRetries m;
  healthCheckIntervalId := v;
  healthCheckInterval := healthCheckInterval m; lastTimeUsed := lastTimeUsed m;
  failedEndpoints := failedEndpoints m; probes := probes m;
  retryTimers := retryTimers m; emitted := emitted m |}.
Definition with_lastTimeUsed v m := {| httpsEndpoints := httpsEndpoints m;
  currentEndpointIndex := currentEndpointIndex m; connection := connection m; state := state m;
  defaultCommitment := defaultCommitment m; debug := debug m; retryDelay := retryDelay m;
  maxRetries := maxRetries m; currentRetries := currentRetries m;
  healthCheckIntervalId := healthCheckIntervalId m;
  healthCheckInterval := healthCheckInterval m; lastTimeUsed := v;
  failedEndpoints := failedEndpoints m; probes := probes m;
  retryTimers := retryTimers m; emitted := emitted m |}.
Definition with_failedEndpoints v m := {| httpsEndpoints := httpsEndpoints m;
  currentEndpointIndex := currentEndpointIndex m; connection := connection m; state := state m;
  defaultCommitment := defaultCommitment m; debug := debug m; retryDelay := retryDelay m;
  maxRetries := maxRetries m; currentRetries := currentRetries m;
  healthCheckIntervalId := healthCheckIntervalId m;
  healthCheckInterval := healthCheckInterval m; lastTimeUsed := lastTimeUsed m;
  failedEndpoints := v; probes := probes m;
  retryTimers := retryTimers m; emitted := emitted m |}.
Definition with_probes v m := {| httpsEndpoints := httpsEndpoints m;
  currentEndpointIndex := currentEndpointIndex m; connection := connection m; state := state m;
  defaultCommitment := defaultCommitment m; debug := debug m; retryDelay := retryDelay m;
  maxRetries := maxRetries m; currentRetries := currentRetries m;
  healthCheckIntervalId := healthCheckIntervalId m;
  healthCheckInterval := healthCheckInterval m; lastTimeUsed := lastTimeUsed m;
  failedEndpoints := failedEndpoints m; probes := v;
  retryTimers := retryTimers m; emitted := emitted m |}.
Definition with_retryTimers v m := {| httpsEndpoints := httpsEndpoints m;
  currentEndpointIndex := currentEndpointIndex m; connection := connection m; state := state m;
  defaultCommitment := defaultCommitment m; debug := debug m; retryDelay := retryDelay m;
  maxRetries := maxRetries m; currentRetries := currentRetries m;
  healthCheckIntervalId := healthCheckIntervalId m;
  healthCheckInterval := healthCheckInterval m; lastTimeUsed := lastTimeUsed m;
  failedEndpoints := failedEndpoints m; probes := probes m;
  retryTimers := v; emitted := emitted m |}.
Definition with_emitted v m := {| httpsEndpoints := httpsEndpoints m;
  currentEndpointIndex := currentEndpointIndex m; connection := connection m; state := state m;
  defaultCommitment := defaultCommitment m; debug := debug m; retryDelay := retryDelay m;
  maxRetries := maxRetries m; currentRetries := currentRetries m;
  healthCheckIntervalId := healthCheckIntervalId m;
  healthCheckInterval := healthCheckInterval m; lastTimeUsed := lastTimeUsed m;
  failedEndpoints := failedEndpoints m; probes := probes m;
  retryTimers := retryTimers m; emitted := v |}.

(** [getCurrentEndpoint()]: [None] stands for [undefined]. *)
Definition getCurrentEndpoint (m : ConnectionManager) : option string :=
  httpsEndpoints m !! currentEndpointIndex m.

Definition emit (e : Event) (m : ConnectionManager) : ConnectionManager :=
  with_emitted (emitted m ++ [e]) m.

(** [setState(state)] *)
Definition setState (st : ConnectionState) (m : ConnectionManager) : ConnectionManager :=
  if decide (state m = st) then m
  else emit (EvStateChange st) (with_state st m).

Section Environment.

(** [new Connection(endpoint, commitment)] returns a client or throws:
    [None] when it succeeds, [Some message] when it throws. *)
Variable connectionRefused : string -> option string.

Section Failure.

(** [connect], for the calls made from [switchEndpoint]. *)
Variable connect : ConnectionManager -> option ConnectionManager.

(** [switchEndpoint()] *)
Definition switchEndpoint (m : ConnectionManager) : option ConnectionManager :=
  let '(failed, nextIndex, _) :=
    Rotation.advance (length (httpsEndpoints m)) (failedEndpoints m)
                     (currentEndpointIndex m) in
  let m1 := setState SWITCHING m in
  connect (with_currentEndpointIndex nextIndex (with_failedEndpoints failed m1)).

(** [handleConnectionFailure(error)] *)
Definition handleConnectionFailure (message : string) (m : ConnectionManager)
  : option ConnectionManager :=
  let m1 := emit (EvConnectionFailure message) (setState FAILED m) in
  if decide (currentRetries m1 < maxRetries m1)
  then Some (with_retryTimers (S (retryTimers m1))
               (with_currentRetries (S (currentRetries m1)) m1))
  else switchEndpoint (with_currentRetries 0 m1).

End Failure.

(** [connect()].  [fuel] bounds the nesting of [connect] inside its
    own failure handling ([None] means it ran out).  An index outside
    the table would give [undefined], which the constructor of the
    client refuses. *)
Fixpoint connect (fuel : nat) (m : ConnectionManager) : option ConnectionManager :=
  match fuel with
  | O => None
  | S fuel' =>
      let m1 := setState CONNECTING m in
      match httpsEndpoints m1 !! currentEndpointIndex m1 with
      | Some endpoint =>
          match connectionRefused endpoint with
          | None =>
              let c := {| rpcEndpoint := endpoint; commitment := defaultCommitment m1 |} in
              Some (with_probes (probes m1 ++ [endpoint]) (with_connection (Some c) m1))
          | Some message => handleConnectionFailure (connect fuel') message m1
          end
      | None => handleConnectionFailure (connect fuel') "Unknown connection error" m1
      end
  end.

(** Two levels are enough when [maxRetries] is not zero (lemma
    [connect_spec]); the constructor makes it so. *)
Definition fuel : nat := 2.

(** [constructor(config)]; [now] is [Date.now()]. *)
Definition new (config : ConnectionManagerConfig) (now : Q)
  : Completion (option ConnectionManager) :=
  let m := {|
    httpsEndpoints := cfg_httpsEndpoints config;
    currentEndpointIndex := 0;
    connection := None;
    state := CONNECTING;
    defaultCommitment := default "confirmed"%string (cfg_defaultCommitment config);
    debug := default false (cfg_debug config);
    retryDelay := orDefaultQ (cfg_retryDelay config) 5000;
    maxRetries := orDefaultNat (cfg_maxRetries config) 3;
    currentRetries := 0;
    healthCheckIntervalId := false;
    healthCheckInterval := orDefaultQ (cfg_healthCheckInterval config) 30000;
    lastTimeUsed := now;
    failedEndpoints := ∅;
    probes := [];
    retryTimers := 0;
    emitted := []
  |} in
  match httpsEndpoints m with
  | [] => Thrown "No RPC endpoints provided"
  | _ => Returned (with_healthCheckIntervalId true <$> connect fuel m)
  end.

(** [getConnection()]; [now] is [Date.now()]. *)
Definition getConnection (now : Q) (m : ConnectionManager)
  : option (Completion Connection * ConnectionManager) :=
  let m1 := with_lastTimeUsed now m in
  match connection m1 with
  | None => m2 ← connect fuel m1; Some (Thrown "Connection not ready yet", m2)
  | Some c => Some (Returned c, m1)
  end.

(** [stop()]: the interval is cleared; the subscribers it also drops
    are not listed in the model. *)
Definition stop (m : ConnectionManager) : ConnectionManager :=
  with_healthCheckIntervalId false m.

(** The calls on a pool: its public methods, and what the environment
    does: the [i]-th pending probe of [connect] resolves, a retry timer
    fires, the health check interval fires at time [now] and its probe
    resolves. *)
Inductive Call : Type :=
| CallGetConnection (now : Q)
| CallStop
| ProbeResolves (i : nat) (healthy : bool)
| RetryTimerFires
| HealthCheckFires (now : Q) (healthy : bool).

Definition step (c : Call) (m : ConnectionManager) : option ConnectionManager :=
  match c with
  | CallGetConnection now => snd <$> getConnection now m
  | CallStop => Some (stop m)
  | ProbeResolves i healthy =>
      match probes m !! i with
      | Some endpoint =>
          let m1 := with_probes (delete i (probes m)) m in
          if healthy
          then Some (emit (EvConnected endpoint)
                       (with_currentRetries 0 (setState CONNECTED m1)))
          else handleConnectionFailure (connect fuel)
                 ("Failed to connect to " ++ endpoint) m1
      | None => Some m
      end
  | RetryTimerFires =>
      match retryTimers m with
      | S n => connect fuel (with_retryTimers n m)
      | O => Some m
      end
  | HealthCheckFires now healthy =>
      if healthCheckIntervalId m then
        if negb (Qle_bool (now - lastTimeUsed m) (healthCheckInterval m * 2)) then Some m
        else
          match connection m with
          | Some _ =>
              if healthy then Some m
              else handleConnectionFailure (connect fuel) "Health check failed" m
          | None => handleConnectionFailure (connect fuel) "Health check failed" m
          end
      else Some m
  end.

End Environment.

End Pool.

(** * Vocabulary of the properties *)

Module SessionSpec.
Import Session.

(** A session at rest: [DISCONNECTED], with no reconnect timer pending. *)
Definition at_rest (s : WebSocketManager) : Prop :=
  state s = DISCONNECTED ∧ reconnectTimer s = None.

(** The inputs by which a reconnect could start: a close event, or the
    callback of the reconnect timer. *)
Definition closeOrTimer (i : Input) : bool :=
  match i with
  | SocketClose _ _ | TimerFires => true
  | _ => false
  end.

(** The session after a list of inputs, oldest first. *)
Definition run (socketRefused : string -> option string) (inputs : list Input)
    (s : WebSocketManager) : WebSocketManager :=
  foldl (λ s i, react socketRefused i s) s inputs.

(** The configured backoff values, as the constructor reads them. *)
Definition initialOf (o : WebSocketManagerOptions) : Q :=
  orDefaultQ (opt_initialBackoff o) 1000.
Definition ceilingOf (o : WebSocketManagerOptions) : Q :=
  orDefaultQ (opt_maxBackoff o) 30000.

(** A fresh session on which [connect()] has been called. *)
Definition start (socketRefused : string -> option string)
    (o : WebSocketManagerOptions) : WebSocketManager :=
  snd (connect socketRefused (new o)).

(** [Math.random()] returns a number between 0 and 1. *)
Definition randomOk (i : Input) : bool :=
  match i with
  | SocketClose _ random => Qle_bool 0 random && Qle_bool random 1
  | _ => true
  end.

(** Backoff and pending delay stay between 0 and the ceiling. *)
Definition bounded (ceiling : Q) (s : WebSocketManager) : Prop :=
  (0 <= backoffTime s)%Q ∧ maxBackoff s = ceiling
  ∧ match reconnectTimer s with
    | Some delay => (0 <= delay)%Q ∧ (delay <= ceiling)%Q
    | None => True
    end.

End SessionSpec.

Module FactorySpec.
Import Session Factory.

(** The table is not empty and the current index points into it. *)
Definition good (f : WebSocketManagerFactory) : Prop :=
  0 < length (wssEndpoints f) ∧ currentEndpointIndex f < length (wssEndpoints f).

(** States in which [createWebSocketManager] cannot nest: a refused
    socket makes [handleConnectionError] switch only on index 0 of a
    table with several entries. *)
Definition quiet (f : WebSocketManagerFactory) : Prop :=
  currentEndpointIndex f ≠ 0 ∨ length (wssEndpoints f) ≤ 1.

(** What a new session emits while [createWebSocketManager] connects
    it, by what [new WebSocket(url)] does. *)
Definition connectEvents (refusal : option string) : list Event :=
  match refusal with
  | None => [EvStateChange CONNECTING]
  | Some message => [EvStateChange CONNECTING; EvStateChange ERROR; EvError message]
  end.

(** The endpoint [createWebSocketManager] reads. *)
Definition endpointOf (f : WebSocketManagerFactory) : string :=
  default "undefined"%string (wssEndpoints f !! currentEndpointIndex f).

(** The [state_change] that ends in [switchEndpoint]: a [RECONNECTING]
    that is counted (no other counted since the last [CONNECTED] or
    switch), on index 0, that brings the counter to the threshold. *)
Definition triggers (st : ConnectionState) (f : WebSocketManagerFactory) : bool :=
  bool_decide (st = RECONNECTING) && negb (isReconnecting f)
  && bool_decide (currentEndpointIndex f = 0)
  && (maxPrimaryFailCount <=? S (primaryFailCount f)).

(** The factory holds a session, and has handed all the events of the
    session to the listeners. *)
Definition attached (f : WebSocketManagerFactory) : Prop :=
  ∃ s, wsManager f = Some s ∧ emitted s = [].

(** What every listener keeps: the table, the options, an index inside
    the table, a session. *)
Definition kept (f f' : WebSocketManagerFactory) : Prop :=
  wssEndpoints f' = wssEndpoints f ∧ options f' = options f
  ∧ (good f → good f')
  ∧ (attached f → attached f').

(** States in which the counter cannot trigger at the next counted
    transition. *)
Definition calm (f : WebSocketManagerFactory) : Prop :=
  currentEndpointIndex f ≠ 0 ∨ isReconnecting f = true ∨ primaryFailCount f ≤ 1.

(** What a listener adds to the events of the factory: the event
    itself, and after a switch what the new session emits on connecting;
    for the transition that triggers, the latter only. *)
Definition forwarded (e : Event) (f f' : WebSocketManagerFactory) (switched : bool)
  : Prop :=
  match e with
  | EvStateChange st =>
      if triggers st f
      then switched = true ∧ ∃ r, out f' = out f ++ connectEvents r
      else switched = false ∧ out f' = out f ++ [e]
  | EvError _ =>
      if switched
      then ∃ r, out f' = out f ++ [e] ++ connectEvents r
      else out f' = out f ++ [e]
  | EvOpen | EvMessage _ => switched = false ∧ out f' = out f ++ [e]
  | EvMaxRetriesReached => switched = false ∧ out f' = out f
  end.


(** The factory after a list of calls, oldest first. *)
Fixpoint run (socketRefused : string -> option string) (calls : list Call)
    (f : WebSocketManagerFactory) : option WebSocketManagerFactory :=
  match calls with
  | [] => Some f
  | c :: rest =>
      match step socketRefused c f with
      | Some f1 => run socketRefused rest f1
      | None => None
      end
  end.

(** The events on which a listener may replace the session. *)
Definition mayTrigger (e : Event) : bool :=
  match e with
  | EvError _ | EvStateChange RECONNECTING => true
  | _ => false
  end.

(** Such an event, if the list has one, is the last of the list. *)
Fixpoint switchLast (events : list Event) : bool :=
  match events with
  | [] => true
  | e :: rest => (negb (mayTrigger e) || bool_decide (rest = [])) && switchLast rest
  end.

(** The listeners run on every event of a list, in order. *)
Fixpoint relay (create : WebSocketManagerFactory -> option WebSocketManagerFactory)
    (events : list Event) (f : WebSocketManagerFactory) : option WebSocketManagerFactory :=
  match events with
  | [] => Some f
  | e :: rest =>
      match listener create e f with
      | Some (f1, _) => relay create rest f1
      | None => None
      end
  end.

(** The method of the session that a call on the factory runs. *)
Definition sessionMethod (socketRefused : string -> option string) (c : Call)
  : option (WebSocketManager -> WebSocketManager) :=
  match c with
  | CallGetWebSocketManager => None
  | CallSend data refused => Some (λ s, snd (Session.send data refused s))
  | CallConnect => Some (λ s, snd (Session.connect socketRefused s))
  | CallDisconnect => Some (λ s, snd (Session.disconnect s))
  | FromSession i => Some (Session.react socketRefused i)
  end.

(** A factory with two endpoints, right after its constructor. *)
Definition exampleFactory : option WebSocketManagerFactory :=
  match Factory.new (λ _, None) ["wss://p1"; "wss://p2"]
          {| opt_url := ""; opt_initialBackoff := None; opt_maxBackoff := None;
             opt_maxRetries := None; opt_debug := None |} with
  | Returned f => f
  | Thrown _ => None
  end.

(** The states a factory built by the constructor can reach. *)
Inductive reachable (socketRefused : string -> option string)
  : WebSocketManagerFactory -> Prop :=
| reachable_new endpoints o f :
    Factory.new socketRefused endpoints o = Returned (Some f) →
    reachable socketRefused f
| reachable_step c f f' :
    reachable socketRefused f → step socketRefused c f = Some f' →
    reachable socketRefused f'.

End FactorySpec.

Module PoolSpec.
Import Pool.

(** The table is not empty and the current index points into it. *)
Definition good (m : ConnectionManager) : Prop :=
  0 < length (httpsEndpoints m) ∧ currentEndpointIndex m < length (httpsEndpoints m).

(** The client, when there is one, is the finished result of
    [new Connection(endpoint, commitment)] for an endpoint of the table. *)
Definition wellBuilt (connectionRefused : string -> option string)
    (m : ConnectionManager) : Prop :=
  match connection m with
  | Some c =>
      ∃ endpoint, endpoint ∈ httpsEndpoints m
                  ∧ connectionRefused endpoint = None
                  ∧ c = {| rpcEndpoint := endpoint; commitment := defaultCommitment m |}
  | None => True
  end.

(** What the constructor establishes and every call keeps. *)
Definition sound (connectionRefused : string -> option string)
    (m : ConnectionManager) : Prop :=
  good m ∧ 0 < maxRetries m ∧ wellBuilt connectionRefused m.

(** Two states that agree on the fields [sound] reads. *)
Definition same (m m' : ConnectionManager) : Prop :=
  httpsEndpoints m' = httpsEndpoints m
  ∧ currentEndpointIndex m' = currentEndpointIndex m
  ∧ connection m' = connection m
  ∧ defaultCommitment m' = defaultCommitment m
  ∧ maxRetries m' = maxRetries m.

(** A pool with two endpoints, right after its constructor. *)
Definition examplePool : option ConnectionManager :=
  match Pool.new (λ _, None)
          {| cfg_httpsEndpoints := ["https://p1"; "https://p2"];
             cfg_defaultCommitment := None; cfg_debug := None; cfg_retryDelay := None;
             cfg_maxRetries := None; cfg_healthCheckInterval := None |} 0 with
  | Returned m => m
  | Thrown _ => None
  end.

(** The states a pool built by the constructor can reach. *)
Inductive reachable (connectionRefused : string -> option string)
  : ConnectionManager -> Prop :=
| reachable_new config now m :
    Pool.new connectionRefused config now = Returned (Some m) →
    reachable connectionRefused m
| reachable_step c m m' :
    reachable connectionRefused m → step connectionRefused c m = Some m' →
    reachable connectionRefused m'.

End PoolSpec.

Module SessionCalls.
Import Session.

(** What happens to a session: the environment acts, or the owner calls
    a public method. *)
Inductive Op : Type :=
| Env (i : Input)
| DoConnect
| DoSend (data : string) (refused : option string)
| DoDisconnect.

Definition perform (socketRefused : string -> option string) (op : Op)
    (s : WebSocketManager) : WebSocketManager :=
  match op with
  | Env i => react socketRefused i s
  | DoConnect => snd (connect socketRefused s)
  | DoSend data refused => snd (send data refused s)
  | DoDisconnect => snd (disconnect s)
  end.

Definition performAll (socketRefused : string -> option string) (ops : list Op)
    (s : WebSocketManager) : WebSocketManager :=
  foldl (λ s op, perform socketRefused op s) s ops.

Definition isConnect (op : Op) : bool :=
  match op with DoConnect => true | _ => false end.

(** The retry counter has not passed its limit. *)
Definition withinLimit (s : WebSocketManager) : Prop :=
  match maxRetries s with
  | Finite n => retryCount s ≤ n
  | Infinity => True
  end.

(** Only the current socket carries listeners, and no socket is held
    while the reconnect timer is pending. *)
Definition tidy (s : WebSocketManager) : Prop :=
  listening s = match ws s with Some k => {[k]} | None => ∅ end
  ∧ (is_Some (reconnectTimer s) → ws s = None).


(** The limit is the configured one, and respected. *)
Definition limited (lim : Limit) (s : WebSocketManager) : Prop :=
  maxRetries s = lim ∧ withinLimit s.

(** The socket an input comes from. *)
Definition socketOf (i : Input) : option nat :=
  match i with
  | SocketOpen k | SocketMessage k _ | SocketError k _ | SocketClose k _ => Some k
  | TimerFires => None
  end.

(** A session that can do nothing any more: no socket, no listener, no
    timer, and a url the socket constructor refuses. *)
Definition dead (socketRefused : string -> option string) (s : WebSocketManager) : Prop :=
  is_Some (socketRefused (url s)) ∧ ws s = None ∧ listening s = ∅
  ∧ reconnectTimer s = None ∧ (state s = DISCONNECTED ∨ state s = ERROR)
  ∧ sent s = [].



End SessionCalls.

(** ** The module-level instance of the streaming manager *)
Module FactoryInstance.
Import Session Factory.

Section Environment.

Variable socketRefused : string -> option string.



End Environment.

End FactoryInstance.

Module FactoryMore.
Import Session Factory FactorySpec.

(** The session of the factory is bound to the current endpoint. *)
Definition bound (f : WebSocketManagerFactory) : Prop :=
  ∃ s, wsManager f = Some s ∧ url s = endpointOf f ∧ emitted s = [].


(** A listener that has switched was on index 0, and the new index and
    failed set are those of the rotation. *)
Definition switched (f f' : WebSocketManagerFactory) : Prop :=
  wssEndpoints f' = wssEndpoints f
  ∧ currentEndpointIndex f = 0
  ∧ (failedEndpoints f', currentEndpointIndex f')
    = fst (Rotation.advance (length (wssEndpoints f)) (failedEndpoints f) 0)
  ∧ switches f' = S (switches f)
  ∧ bound f'.



End FactoryMore.

(** * Properties *)

(** ** Endpoint rotation *)
Module RotationFacts.
Import Rotation.

Lemma skipFailed_lt (failed : gset nat) (len b i : nat) :
  0 < len → i < len → skipFailed failed len b i < len.
Proof.
  intros Hlen. revert i. induction b as [|b IH]; intros i Hi; simpl; [done|].
  case_decide; [|done]. apply IH, Nat.mod_upper_bound. lia.
Qed.

(** The loop stops at the first index, walking forward circularly from
    [i], that is not failed, or after [b] steps. *)
Lemma skipFailed_walk (failed : gset nat) (len b i : nat) :
  0 < len → i < len →
  ∃ k, k ≤ b ∧ skipFailed failed len b i = (i + k) mod len
       ∧ (∀ k', k' < k → (i + k') mod len ∈ failed)
       ∧ (skipFailed failed len b i ∉ failed ∨ k = b).
Proof.
  intros Hlen. revert i. induction b as [|b IH]; intros i Hi; simpl.
  - exists 0. rewrite Nat.add_0_r, Nat.mod_small by done.
    repeat split; [lia|lia|by right].
  - case_decide as Hin.
    + destruct (IH ((i + 1) mod len)) as (k & Hk & Heq & Hbefore & Hlast).
      { apply Nat.mod_upper_bound. lia. }
      exists (S k). split; [lia|]. split; [|split].
      * rewrite Heq, Nat.Div0.add_mod_idemp_l. f_equal. lia.
      * intros [|k'] Hk'.
        -- by rewrite Nat.add_0_r, Nat.mod_small.
        -- specialize (Hbefore k' ltac:(lia)).
           rewrite Nat.Div0.add_mod_idemp_l in Hbefore.
           by replace (i + S k') with (i + 1 + k') by lia.
      * destruct Hlast as [?| ->]; [by left|by right].
    + exists 0. rewrite Nat.add_0_r, Nat.mod_small by done.
      repeat split; [lia|lia|by left].
Qed.

(** A set that holds a whole turn of the circle has all the indices. *)
Lemma full_turn_size (failed : gset nat) (len i : nat) :
  0 < len → i < len →
  (∀ k, k < len → (i + k) mod len ∈ failed) → len ≤ size failed.
Proof.
  intros Hlen Hi Hall.
  rewrite <- (size_set_seq (C := gset nat) 0 len).
  apply subseteq_size. intros m [_ Hm]%elem_of_set_seq. simpl in Hm.
  specialize (Hall ((m + (len - i)) mod len) ltac:(apply Nat.mod_upper_bound; lia)).
  rewrite Nat.Div0.add_mod_idemp_r in Hall.
  replace (i + (m + (len - i))) with (m + 1 * len) in Hall by lia.
  by rewrite Nat.Div0.mod_add, Nat.mod_small in Hall.
Qed.

Lemma size_covers (failed : gset nat) (len : nat) :
  (∀ i, i ∈ failed → i < len) →
  len ≤ size failed ↔ ∀ i, i < len → i ∈ failed.
Proof.
  intros Hrange. split.
  - intros Hsize i Hi.
    assert (failed ⊆ set_seq 0 len) as Hsub.
    { intros j Hj. apply elem_of_set_seq. specialize (Hrange j Hj). lia. }
    assert (failed = set_seq 0 len) as ->.
    { apply set_subseteq_size_eq; [done|]. by rewrite size_set_seq. }
    apply elem_of_set_seq. lia.
  - intros Hall. rewrite <- (size_set_seq (C := gset nat) 0 len).
    apply subseteq_size. intros m [_ Hm]%elem_of_set_seq. apply Hall. lia.
Qed.

Lemma skipFailed_empty (len i : nat) : skipFailed ∅ len len i = i.
Proof. destruct len; simpl; [done|]. case_decide; [set_solver|done]. Qed.

(** What [advance] computes. *)
Lemma advance_spec (len : nat) (failed : gset nat) (current : nat) :
  0 < len → current < len →
  ∃ failed' nextIndex cleared,
    advance len failed current = (failed', nextIndex, cleared)
    ∧ nextIndex < len
    ∧ (cleared = true ↔ len ≤ size ({[current]} ∪ failed))
    ∧ (cleared = true → failed' = ∅ ∧ nextIndex = (current + 1) mod len)
    ∧ (cleared = false →
         failed' = {[current]} ∪ failed ∧ (nextIndex ∉ failed')
         ∧ ∃ k, k < len ∧ nextIndex = (current + 1 + k) mod len
                ∧ ∀ k', k' < k → (current + 1 + k') mod len ∈ failed').
Proof.
  intros Hlen Hcur. unfold advance.
  set (failed1 := {[current]} ∪ failed).
  assert ((current + 1) mod len < len) as Hnext by (apply Nat.mod_upper_bound; lia).
  eexists _, _, _. split; [reflexivity|]. split; [|split; [|split]].
  - by apply skipFailed_lt.
  - by rewrite bool_decide_eq_true.
  - intros Hsize. rewrite Hsize. by rewrite skipFailed_empty.
  - intros Hsize. rewrite Hsize. apply bool_decide_eq_false in Hsize.
    destruct (skipFailed_walk failed1 len len ((current + 1) mod len) Hlen Hnext)
      as (k & Hk & Heq & Hbefore & Hlast).
    assert (∀ k', k' < k → (current + 1 + k') mod len ∈ failed1) as Hbefore'.
    { intros k' Hk'. specialize (Hbefore k' Hk').
      by rewrite Nat.Div0.add_mod_idemp_l in Hbefore. }
    assert (k < len) as Hlt.
    { destruct (decide (k = len)) as [->|]; [|lia]. exfalso. apply Hsize.
      apply (full_turn_size failed1 len ((current + 1) mod len)); [done..|].
      intros k' Hk'. by apply Hbefore. }
    split; [done|]. split.
    + destruct Hlast as [?|?]; [done|lia].
    + exists k. split; [done|]. split; [|done].
      by rewrite Heq, Nat.Div0.add_mod_idemp_l.
Qed.

(** Leaving index 0 of a table with several entries never lands on
    index 0 again. *)
Lemma advance_leaves_primary (len : nat) (failed : gset nat) :
  1 < len → snd (fst (advance len failed 0)) ≠ 0.
Proof.
  intros Hlen.
  destruct (advance_spec len failed 0) as (f' & n & [] & Heq & _ & _ & Hc & Hnc);
    [lia..| |]; rewrite Heq; simpl.
  - destruct (Hc eq_refl) as [_ ->]. rewrite Nat.mod_small; lia.
  - destruct (Hnc eq_refl) as (-> & Hnot & _). intros ->.
    by apply Hnot, elem_of_union_l, elem_of_singleton.
Qed.

End RotationFacts.

(** ** The session *)
Module SessionFacts.
Import Session SessionSpec.

(** [setState] touches the state and the emitted events, nothing else. *)
Lemma setState_state st s : state (setState st s) = st.
Proof. unfold setState. by case_decide. Qed.

Lemma setState_frame st s :
  ws (setState st s) = ws s ∧ retryCount (setState st s) = retryCount s
  ∧ backoffTime (setState st s) = backoffTime s
  ∧ maxBackoff (setState st s) = maxBackoff s
  ∧ maxRetries (setState st s) = maxRetries s
  ∧ reconnectTimer (setState st s) = reconnectTimer s
  ∧ listening (setState st s) = listening s
  ∧ errorListeners (setState st s) = errorListeners s.
Proof. unfold setState. by case_decide. Qed.

Lemma setState_same st s : state s = st → setState st s = s.
Proof. intros H. unfold setState. by case_decide. Qed.

(** [cleanUp] leaves no timer, no socket, and keeps the state. *)
Lemma cleanUp_spec s :
  reconnectTimer (cleanUp s) = None ∧ ws (cleanUp s) = None
  ∧ state (cleanUp s) = state s ∧ emitted (cleanUp s) = emitted s
  ∧ retryCount (cleanUp s) = retryCount s ∧ backoffTime (cleanUp s) = backoffTime s
  ∧ maxBackoff (cleanUp s) = maxBackoff s ∧ maxRetries (cleanUp s) = maxRetries s.
Proof. unfold cleanUp. simpl. destruct (ws s) eqn:E; simpl; rewrite ?E; done. Qed.

Lemma cleanUp_nothing s : reconnectTimer s = None → ws s = None → cleanUp s = s.
Proof. destruct s. simpl. by intros -> ->. Qed.

Lemma disconnect_at_rest s : at_rest (snd (disconnect s)).
Proof.
  unfold at_rest, disconnect. simpl.
  destruct (cleanUp_spec s) as (Ht & _).
  destruct (setState_frame DISCONNECTED (cleanUp s)) as (_ & _ & _ & _ & _ & Hf & _).
  by rewrite setState_state, Hf.
Qed.

Lemma react_at_rest refused i s :
  closeOrTimer i = true → at_rest s → at_rest (react refused i s).
Proof.
  intros Hi [Hst Ht]. destruct i; try discriminate; simpl.
  - case_decide; [|done]. unfold onClose.
    destruct (cleanUp_spec s) as (Ht' & _ & Hst' & _).
    case_decide as Hne; [|by split]. by rewrite Hst', Hst in Hne.
  - by rewrite Ht.
Qed.

Lemma run_at_rest refused (inputs : list Input) s :
  Forall (λ i, closeOrTimer i = true) inputs → at_rest s →
  at_rest (run refused inputs s).
Proof.
  intros Hall. unfold run. revert s. induction Hall as [|i inputs Hi _ IH]; intros s Hs; simpl; [done|].
  by apply IH, react_at_rest.
Qed.

(** The delay of [attemptReconnect] lies between 0 and the ceiling. *)
Lemma delay_bounds (backoff ceiling random : Q) :
  (0 <= backoff)%Q → (0 <= ceiling)%Q → (0 <= random)%Q →
  (0 <= Qmin (backoff * (random * 0.3 + 0.85)) ceiling)%Q
  ∧ (Qmin (backoff * (random * 0.3 + 0.85)) ceiling <= ceiling)%Q.
Proof.
  intros Hb Hc Hr. split; [|apply Q.le_min_r].
  apply Q.min_glb; [|done]. apply Qmult_le_0_compat; [done|lra].
Qed.

Lemma escalation_bounds (backoff ceiling : Q) :
  (0 <= backoff)%Q → (0 <= ceiling)%Q → (0 <= Qmin (backoff * 1.5) ceiling)%Q.
Proof. intros Hb Hc. apply Q.min_glb; [lra|done]. Qed.

Lemma bounded_setState c st s : bounded c s → bounded c (setState st s).
Proof.
  unfold bounded.
  destruct (setState_frame st s) as (_ & _ & -> & -> & _ & -> & _). done.
Qed.

Lemma bounded_cleanUp c s : bounded c s → bounded c (cleanUp s).
Proof.
  unfold bounded.
  destruct (cleanUp_spec s) as (-> & _ & _ & _ & _ & -> & -> & _). tauto.
Qed.

Lemma bounded_connect refused c s : bounded c s → bounded c (snd (connect refused s)).
Proof.
  intros H. unfold connect. case_decide; [done|].
  pose proof (bounded_setState c CONNECTING s H) as H1.
  destruct (refused _); simpl; [|done].
  by apply bounded_setState.
Qed.

Lemma bounded_attemptReconnect c random s :
  (0 <= c)%Q → (0 <= random)%Q → bounded c s → bounded c (attemptReconnect random s).
Proof.
  intros Hc Hr H. unfold attemptReconnect. destruct (reached _ _).
  - by apply (bounded_setState c DISCONNECTED).
  - pose proof (bounded_setState c RECONNECTING s H) as (Hb & Hm & _).
    unfold bounded. simpl. split; [done|]. split; [done|].
    rewrite Hm. by apply delay_bounds.
Qed.

(** Every input keeps the bounds. *)
Lemma bounded_react refused c i s :
  (0 <= c)%Q → randomOk i = true → bounded c s → bounded c (react refused i s).
Proof.
  intros Hc Hi H. destruct i; simpl.
  - case_decide; [|done]. unfold onOpen.
    pose proof (bounded_setState c CONNECTED s H) as (_ & Hm & Ht).
    unfold bounded. simpl. split; [lra|done].
  - by case_decide.
  - case_decide; [|done]. unfold onError, handleError. simpl.
    by apply bounded_setState.
  - case_decide; [|done]. unfold onClose.
    simpl in Hi. apply andb_true_iff in Hi as [Hr%Qle_bool_iff _].
    case_decide; [|by apply bounded_cleanUp].
    by apply bounded_attemptReconnect, bounded_cleanUp.
  - destruct (reconnectTimer s) eqn:Et; [|done]. unfold onTimer.
    assert (bounded c (with_reconnectTimer None s)) as H0.
    { destruct H as (? & ? & _). by repeat split. }
    pose proof (bounded_connect refused c _ H0) as H1.
    destruct (connect refused _) as [[] s1]; simpl in H1; [|done].
    destruct H1 as (Hb & Hm & Ht). unfold bounded. simpl.
    split; [|done]. rewrite Hm. by apply escalation_bounds.
Qed.

Lemma bounded_run refused c inputs s :
  (0 <= c)%Q → Forall (λ i, randomOk i = true) inputs →
  bounded c s → bounded c (run refused inputs s).
Proof.
  intros Hc Hall. unfold run. revert s.
  induction Hall as [|i inputs Hi _ IH]; intros s Hs; simpl; [done|].
  by apply IH, bounded_react.
Qed.

Lemma bounded_start refused o :
  (0 <= initialOf o)%Q → bounded (ceilingOf o) (start refused o).
Proof.
  intros Hi. apply bounded_connect. by repeat split.
Qed.

(** The first close event on a fresh session schedules the first retry,
    from the configured initial backoff. *)
Lemma first_retry refused o random :
  refused (opt_url o) = None →
  reconnectTimer (react refused (SocketClose 0 random) (start refused o))
  = Some (Qmin (initialOf o * (random * 0.3 + 0.85)) (ceilingOf o)).
Proof.
  intros Hok. unfold start, connect. simpl. rewrite Hok. simpl.
  rewrite decide_True by (by apply elem_of_union_l, elem_of_singleton).
  unfold onClose, cleanUp, setState. simpl.
  unfold attemptReconnect. simpl.
  by destruct (opt_maxRetries o) as [[[|n]|]|].
Qed.

End SessionFacts.

Import Session SessionSpec.

(** C7.  [send] succeeds only in the [CONNECTED] state: in every other
    state, and whenever the session has no socket, it returns [false],
    throws nothing and changes nothing. *)
Theorem C7_send_unless_connected (data : string) (refused : option string)
    (s : WebSocketManager) :
  state s ≠ CONNECTED ∨ ws s = None →
  send data refused s = (Returned false, s).
Proof. intros H. unfold send. by case_decide. Qed.

Lemma C7_send_unless_connected_witness :
  let s := new {| opt_url := "wss://p1"; opt_initialBackoff := None;
                  opt_maxBackoff := None; opt_maxRetries := None; opt_debug := None |} in
  (state s ≠ CONNECTED ∨ ws s = None)
  ∧ send "ping" None s = (Returned false, s).
Proof.
  simpl. split; [by left|].
  apply C7_send_unless_connected. by left.
Defined.

(** C8.  [disconnect] is idempotent: both calls of two in a row return
    without an exception, the first leaves the session [DISCONNECTED] with
    no reconnect timer, the second changes nothing (and emits nothing);
    whatever close events and timer callbacks follow, no reconnect is
    scheduled and the session stays [DISCONNECTED]. *)
Theorem C8_disconnect_idempotent (socketRefused : string -> option string)
    (s : WebSocketManager) (later : list Input) :
  Forall (λ i, closeOrTimer i = true) later →
  let '(c1, s1) := disconnect s in
  let '(c2, s2) := disconnect s1 in
  c1 = Returned tt ∧ c2 = Returned tt
  ∧ getState s1 = DISCONNECTED ∧ reconnectTimer s1 = None ∧ ws s1 = None
  ∧ s2 = s1
  ∧ getState (run socketRefused later s1) = DISCONNECTED
  ∧ reconnectTimer (run socketRefused later s1) = None.
Proof.
  intros Hlater.
  pose proof (SessionFacts.disconnect_at_rest s) as Hrest.
  unfold disconnect in *. simpl in *.
  destruct Hrest as [Hst Ht].
  split; [done|]. split; [done|]. split; [done|]. split; [done|]. split.
  { destruct (SessionFacts.setState_frame DISCONNECTED (cleanUp s)) as (-> & _).
    apply SessionFacts.cleanUp_spec. }
  split.
  { set (s1 := setState DISCONNECTED (cleanUp s)) in *.
    assert (cleanUp s1 = s1) as ->.
    { apply SessionFacts.cleanUp_nothing; [done|]. unfold s1.
      destruct (SessionFacts.setState_frame DISCONNECTED (cleanUp s)) as (-> & _).
      apply SessionFacts.cleanUp_spec. }
    by apply SessionFacts.setState_same. }
  by apply (SessionFacts.run_at_rest socketRefused later).
Qed.

Lemma C8_disconnect_idempotent_witness :
  let refused := λ _ : string, None in
  let s := run refused [SocketOpen 0]
             (snd (connect refused
                (new {| opt_url := "wss://p1"; opt_initialBackoff := None;
                        opt_maxBackoff := None; opt_maxRetries := None;
                        opt_debug := None |}))) in
  let later := [SocketClose 0 0; TimerFires; SocketClose 0 0] in
  getState s = CONNECTED
  ∧ Forall (λ i, closeOrTimer i = true) later
  ∧ getState (run refused later (snd (disconnect s))) = DISCONNECTED
  ∧ reconnectTimer (run refused later (snd (disconnect s))) = None.
Proof.
  intros refused s later.
  assert (Forall (λ i, closeOrTimer i = true) later) as Hlater
    by (repeat constructor).
  split; [reflexivity|]. split; [exact Hlater|].
  pose proof (C8_disconnect_idempotent refused s later Hlater) as H.
  destruct (disconnect s) as [c1 s1] eqn:E1.
  destruct (disconnect s1) as [c2 s2].
  simpl. destruct H as (_ & _ & _ & _ & _ & _ & H1 & H2). by split.
Defined.

(** C5, as the design document has it, fails: an error received by a
    connected session moves it to [ERROR]. *)
Lemma C5_error_changes_state :
  let refused := λ _ : string, None in
  let s := run refused [SocketOpen 0]
             (start refused {| opt_url := "wss://p1"; opt_initialBackoff := None;
                               opt_maxBackoff := None; opt_maxRetries := None;
                               opt_debug := None |}) in
  getState s = CONNECTED
  ∧ getState (react refused (SocketError 0 "reset by peer") s) ≠ getState s.
Proof. split; [reflexivity|]. vm_compute. discriminate. Qed.

(** C5, amended.  An error received while [CONNECTED] sets the state to
    [ERROR], emits [state_change(error)] and then [error], and touches
    neither the socket, the retry counter, the backoff nor the timer: no
    reconnect is scheduled by it.  The reconnect comes with the close
    event that follows, as long as retries are left. *)
Theorem C5_error_sets_error_state (socketRefused : string -> option string)
    (s : WebSocketManager) (k : nat) (message : string) (random : Q) :
  state s = CONNECTED → k ∈ listening s →
  let s1 := react socketRefused (SocketError k message) s in
  let s2 := react socketRefused (SocketClose k random) s1 in
  getState s1 = ERROR
  ∧ emitted s1 = emitted s ++ [EvStateChange ERROR; EvError message]
  ∧ ws s1 = ws s ∧ listening s1 = listening s
  ∧ retryCount s1 = retryCount s ∧ backoffTime s1 = backoffTime s
  ∧ reconnectTimer s1 = reconnectTimer s
  ∧ (reached (retryCount s) (maxRetries s) = false →
     getState s2 = RECONNECTING ∧ is_Some (reconnectTimer s2)).
Proof.
  intros Hst Hk s1 s2.
  assert (s1 = emit (EvError message) (emit (EvStateChange ERROR) (with_state ERROR s)))
    as Hs1.
  { unfold s1. simpl. case_decide; [|done].
    unfold onError, handleError, setState. simpl.
    case_decide as He; [by rewrite Hst in He|done]. }
  split; [by rewrite Hs1|]. split; [by rewrite Hs1; simpl; rewrite <- app_assoc|].
  do 5 (split; [by rewrite Hs1|]).
  intros Hleft. unfold s2. simpl.
  assert (k ∈ listening s1) as Hk1 by (by rewrite Hs1).
  case_decide; [|done]. unfold onClose.
  destruct (SessionFacts.cleanUp_spec s1) as (_ & _ & Hcst & _ & Hcr & _ & _ & Hcm).
  case_decide as Hne; [|by rewrite Hcst, Hs1 in Hne].
  unfold attemptReconnect. rewrite Hcr, Hcm, Hs1. simpl. rewrite Hleft. simpl.
  split; [apply SessionFacts.setState_state|by eexists].
Qed.

Lemma C5_error_sets_error_state_witness :
  let refused := λ _ : string, None in
  let s := run refused [SocketOpen 0]
             (start refused {| opt_url := "wss://p1"; opt_initialBackoff := None;
                               opt_maxBackoff := None; opt_maxRetries := None;
                               opt_debug := None |}) in
  let s1 := react refused (SocketError 0 "reset by peer") s in
  (state s = CONNECTED ∧ 0 ∈ listening s)
  ∧ getState s1 = ERROR ∧ reconnectTimer s1 = reconnectTimer s.
Proof.
  intros refused s s1.
  assert (state s = CONNECTED) as Hst by reflexivity.
  assert (0 ∈ listening s) as Hk by (vm_compute; reflexivity).
  split; [by split|].
  destruct (C5_error_sets_error_state refused s 0 "reset by peer" 0 Hst Hk)
    as (H1 & _ & _ & _ & _ & _ & H2 & _).
  by split.
Defined.

(** C2, on the code: fail once, succeed, fail again, with an initial
    backoff of 500 ms and [Math.random()] at 1/2 (a jitter factor of 1).
    The first failure waits the initial 500 ms.  The open event resets the
    attempt counter to 0 and the backoff to the literal 1000, so the
    second failure waits 1000 ms, not the configured initial value. *)
Theorem C2_open_resets_backoff_to_1000 :
  let refused := λ _ : string, None in
  let s0 := start refused {| opt_url := "wss://p1"; opt_initialBackoff := Some 500%Q;
                             opt_maxBackoff := None; opt_maxRetries := None;
                             opt_debug := None |} in
  let s1 := react refused (SocketClose 0 (1 # 2)) s0 in
  let s2 := react refused TimerFires s1 in
  let s3 := react refused (SocketOpen 1) s2 in
  let s4 := react refused (SocketClose 1 (1 # 2)) s3 in
  (backoffTime s0 == 500)%Q
  ∧ (∃ delay, reconnectTimer s1 = Some delay ∧ (delay == 500)%Q)
  ∧ (retryCount s2 = 1 ∧ (backoffTime s2 == 750)%Q)
  ∧ (getState s3 = CONNECTED ∧ retryCount s3 = 0 ∧ (backoffTime s3 == 1000)%Q)
  ∧ (∃ delay, reconnectTimer s4 = Some delay ∧ (delay == 1000)%Q ∧ ¬ (delay == 500)%Q).
Proof.
  repeat split; try reflexivity.
  - eexists. split; [vm_compute; reflexivity|reflexivity].
  - eexists. split; [vm_compute; reflexivity|]. split; [reflexivity|discriminate].
Qed.

(** C6, as the design document has it, fails on the lower bound: with an
    initial backoff of 50000 ms above the ceiling of 30000 ms, the first
    delay is the ceiling, below 0.85 times the initial backoff. *)
Lemma C6_first_delay_below_initial :
  let refused := λ _ : string, None in
  let o := {| opt_url := "wss://p1"; opt_initialBackoff := Some 50000%Q;
              opt_maxBackoff := Some 30000%Q; opt_maxRetries := None;
              opt_debug := None |} in
  let s := react refused (SocketClose 0 (1 # 2)) (start refused o) in
  retryCount (start refused o) = 0
  ∧ ∃ delay, reconnectTimer s = Some delay ∧ (delay == 30000)%Q
             ∧ ¬ (initialOf o * 0.85 <= delay)%Q.
Proof.
  split; [reflexivity|]. eexists. split; [vm_compute; reflexivity|].
  split; [reflexivity|]. vm_compute. by intros H.
Qed.

(** C6, amended.  With a configuration that is not negative, the delay of
    every scheduled reconnect, in every state the session can reach, lies
    between 0 and the ceiling (hence below 1.15 times the ceiling); and the
    first retry of a session (attempt count 0, no open event yet) is
    scheduled with a delay of at least the smaller of 0.85 times the
    initial backoff and the ceiling. *)
Theorem C6_delay_bounds (socketRefused : string -> option string)
    (o : WebSocketManagerOptions) (inputs : list Input) (random : Q) :
  (0 <= initialOf o)%Q → (0 <= ceilingOf o)%Q →
  Forall (λ i, randomOk i = true) inputs →
  (0 <= random)%Q → (random <= 1)%Q →
  match reconnectTimer (run socketRefused inputs (start socketRefused o)) with
  | Some delay =>
      (0 <= delay)%Q ∧ (delay <= ceilingOf o)%Q ∧ (delay <= ceilingOf o * 1.15)%Q
  | None => True
  end
  ∧ (socketRefused (opt_url o) = None →
     retryCount (start socketRefused o) = 0
     ∧ ∃ delay,
         reconnectTimer (react socketRefused (SocketClose 0 random) (start socketRefused o))
           = Some delay
         ∧ (Qmin (initialOf o * 0.85) (ceilingOf o) <= delay)%Q
         ∧ (delay <= ceilingOf o)%Q).
Proof.
  intros Hi Hc Hall Hr0 Hr1. split.
  - pose proof (SessionFacts.bounded_run socketRefused (ceilingOf o) inputs _ Hc Hall
                  (SessionFacts.bounded_start socketRefused o Hi)) as (_ & _ & Ht).
    destruct (reconnectTimer _); [|done]. destruct Ht as [H0 H1].
    split; [done|]. split; [done|]. lra.
  - intros Hok. split; [by unfold start, connect; simpl; rewrite Hok|].
    eexists. split; [by apply SessionFacts.first_retry|].
    split; [|apply Q.le_min_r].
    apply Q.min_le_compat_r.
    rewrite (Qmult_comm _ 0.85), (Qmult_comm _ (random * 0.3 + 0.85)).
    apply Qmult_le_compat_r; [lra|done].
Qed.

Lemma C6_delay_bounds_witness :
  let refused := λ _ : string, None in
  let o := {| opt_url := "wss://p1"; opt_initialBackoff := Some 2000%Q;
              opt_maxBackoff := Some 30000%Q; opt_maxRetries := None;
              opt_debug := None |} in
  let inputs := [SocketClose 0 (1 # 2); TimerFires; SocketClose 1 (1 # 4)] in
  ((0 <= initialOf o)%Q ∧ (0 <= ceilingOf o)%Q
   ∧ Forall (λ i, randomOk i = true) inputs ∧ refused (opt_url o) = None)
  ∧ match reconnectTimer (run refused inputs (start refused o)) with
    | Some delay =>
        (0 <= delay)%Q ∧ (delay <= ceilingOf o)%Q ∧ (delay <= ceilingOf o * 1.15)%Q
    | None => True
    end
  ∧ ∃ delay,
      reconnectTimer (react refused (SocketClose 0 0) (start refused o)) = Some delay
      ∧ (Qmin (initialOf o * 0.85) (ceilingOf o) <= delay)%Q.
Proof.
  intros refused o inputs.
  assert (0 <= initialOf o)%Q as Hi by (by vm_compute).
  assert (0 <= ceilingOf o)%Q as Hc by (by vm_compute).
  assert (Forall (λ i, randomOk i = true) inputs) as Hall by (by repeat constructor).
  assert (0 <= 0)%Q as Hr0 by (by vm_compute).
  assert (0 <= 1)%Q as Hr1 by (by vm_compute).
  split; [done|].
  destruct (C6_delay_bounds refused o inputs 0 Hi Hc Hall Hr0 Hr1) as [Hany Hfirst].
  split; [exact Hany|].
  destruct (Hfirst eq_refl) as (_ & delay & Hd & Hlow & _).
  by exists delay.
Defined.

(** ** The streaming manager *)
Module FactoryFacts.
Import Session Factory FactorySpec.

(** Reduce the field accesses, and nothing else. *)
Ltac factory_fields :=
  cbn [wssEndpoints currentEndpointIndex wsManager options failedEndpoints
       isReconnecting primaryFailCount out switches
       with_currentEndpointIndex with_wsManager with_failedEndpoints
       with_isReconnecting with_primaryFailCount with_out with_switches
       Factory.emit] in *.

Section WithEnvironment.
Variable refused : string -> option string.

(** The new session of [createWebSocketManager] and what its
    [connect()] emits. *)
Lemma connect_new endpoint o :
  emitted (snd (Session.connect refused
                  (with_errorListeners true (Session.new (sessionOptions endpoint o)))))
  = connectEvents (refused endpoint).
Proof.
  unfold Session.connect. simpl.
  destruct (refused endpoint); reflexivity.
Qed.

Lemma createWebSocketManager_S n f :
  createWebSocketManager refused (S n) f
  = drive (createWebSocketManager refused n)
      (λ s, snd (Session.connect refused s))
      (with_wsManager
         (Some (with_errorListeners true
                  (Session.new (sessionOptions (endpointOf f) (options f))))) f).
Proof. reflexivity. Qed.

Lemma create_quiet n f :
  quiet f →
  ∃ f', createWebSocketManager refused (S n) f = Some f'
        ∧ wssEndpoints f' = wssEndpoints f
        ∧ options f' = options f
        ∧ currentEndpointIndex f' = currentEndpointIndex f
        ∧ failedEndpoints f' = failedEndpoints f
        ∧ isReconnecting f' = isReconnecting f
        ∧ switches f' = switches f
        ∧ primaryFailCount f ≤ primaryFailCount f' ≤ S (primaryFailCount f)
        ∧ (currentEndpointIndex f ≠ 0 → primaryFailCount f' = primaryFailCount f)
        ∧ out f' = out f ++ connectEvents (refused (endpointOf f))
        ∧ attached f'.
Proof.
  intros Hq. simpl. unfold drive. simpl.
  rewrite connect_new. fold (endpointOf f).
  destruct (refused (endpointOf f)) as [message|] eqn:E; simpl.
  - unfold handleConnectionError. simpl.
    destruct (decide (currentEndpointIndex f = 0)) as [H0|H0].
    + rewrite decide_False by (destruct Hq; simpl; lia).
      eexists. split; [reflexivity|]. simpl.
      split_and!; try done; try lia; [by rewrite <- !app_assoc|by eexists].
    + eexists. split; [reflexivity|]. simpl.
      split_and!; try done; try lia; [by rewrite <- !app_assoc|by eexists].
  - eexists. split; [reflexivity|]. simpl.
    split_and!; try done; try lia. by eexists.
Qed.

Lemma size_with_current (failed : gset nat) (current : nat) :
  1 ≤ size ({[current]} ∪ failed).
Proof.
  rewrite <- (size_singleton (C := gset nat) current).
  apply subseteq_size, union_subseteq_l.
Qed.

(** [switchEndpoint] called on the primary: it returns, on a state
    from which the counter cannot trigger at once. *)
Lemma switch_primary n f :
  currentEndpointIndex f = 0 →
  ∃ f', switchEndpoint (createWebSocketManager refused (S n)) f = Some f'
        ∧ wssEndpoints f' = wssEndpoints f
        ∧ options f' = options f
        ∧ switches f' = S (switches f)
        ∧ isReconnecting f' = false
        ∧ (good f → good f')
        ∧ (currentEndpointIndex f' ≠ 0 ∨ primaryFailCount f' ≤ 1)
        ∧ (∃ r, out f' = out f ++ connectEvents r)
        ∧ attached f'.
Proof.
  intros H0. unfold switchEndpoint. rewrite H0.
  destruct (Rotation.advance _ _ _) as [[failed' next] cleared] eqn:E.
  set (g := with_switches _ _).
  assert (wssEndpoints g = wssEndpoints f) as Htable by (by unfold g; destruct cleared).
  assert (currentEndpointIndex g = next) as Hidx by (by unfold g; destruct cleared).
  assert (quiet g) as Hq.
  { unfold quiet. rewrite Htable, Hidx.
    destruct (decide (1 < length (wssEndpoints f))) as [Hlen|Hlen]; [left|right; lia].
    pose proof (RotationFacts.advance_leaves_primary _ (failedEndpoints f) Hlen) as Hne.
    by rewrite E in Hne. }
  destruct (create_quiet n g Hq)
    as (f' & -> & Ht & Ho & Hi & _ & Hr & Hs & Hc & Hc' & Hout & Hws).
  exists f'. split; [done|].
  split; [by rewrite Ht|]. split; [by rewrite Ho; unfold g; destruct cleared|].
  split; [by rewrite Hs; unfold g; destruct cleared|].
  split; [by rewrite Hr; unfold g; destruct cleared|].
  split.
  { intros [Hlen _]. unfold good. rewrite Ht, Hi, Htable, Hidx. split; [done|].
    destruct (RotationFacts.advance_spec (length (wssEndpoints f)) (failedEndpoints f) 0)
      as (? & ? & ? & E' & Hlt & _); [done..|].
    rewrite E in E'. by simplify_eq. }
  split.
  { destruct (decide (next = 0)) as [->|Hne]; [right|left; by rewrite Hi, Hidx].
    destruct (decide (1 < length (wssEndpoints f))) as [Hlen|Hlen].
    { pose proof (RotationFacts.advance_leaves_primary _ (failedEndpoints f) Hlen) as Hne.
      by rewrite E in Hne. }
    assert (cleared = true) as ->.
    { unfold Rotation.advance in E. simplify_eq. apply bool_decide_eq_true.
      pose proof (size_with_current (failedEndpoints f) 0). lia. }
    assert (primaryFailCount g = 0) as Hg by done. lia. }
  split; [|done].
  eexists. rewrite Hout. by unfold g; destruct cleared.
Qed.

Lemma kept_refl f : kept f f.
Proof. unfold kept. by split_and!. Qed.

Lemma kept_trans f g h : kept f g → kept g h → kept f h.
Proof.
  intros (H1 & H2 & H3 & H4) (G1 & G2 & G3 & G4).
  unfold kept. split_and!; [congruence|congruence|auto|auto].
Qed.

Lemma onStateChange_spec n st f :
  ∃ f' sw, onStateChange (createWebSocketManager refused (S n)) st f = Some (f', sw)
           ∧ kept f f'
           ∧ switches f' = switches f + (if sw then 1 else 0)
           ∧ forwarded (EvStateChange st) f f' sw
           ∧ sw = triggers st f
           ∧ (sw = true → calm f')
           ∧ (sw = false →
              currentEndpointIndex f' = currentEndpointIndex f
              ∧ isReconnecting f' =
                  (if decide (st = CONNECTED) then false
                   else if decide (st = RECONNECTING) then true
                   else isReconnecting f)
              ∧ primaryFailCount f' =
                  (if bool_decide (st = RECONNECTING) && negb (isReconnecting f)
                      && bool_decide (currentEndpointIndex f = 0)
                   then S (primaryFailCount f) else primaryFailCount f)).
Proof.
  unfold onStateChange, forwarded, triggers, maxPrimaryFailCount.
  destruct (decide (st = RECONNECTING ∧ isReconnecting f = false)) as [[-> Hr]|Hn].
  - rewrite Hr. factory_fields. rewrite bool_decide_eq_true_2 by done.
    destruct (decide (currentEndpointIndex f = 0)) as [H0|H0].
    + rewrite (bool_decide_eq_true_2 _ H0).
      destruct (decide (3 ≤ S (primaryFailCount f))) as [H3|H3].
      * destruct (switch_primary n
                    (with_primaryFailCount (S (primaryFailCount f))
                       (with_isReconnecting true f)) H0)
          as (f' & -> & Ht & Ho & Hs & Hrec & Hg & Hc & Hout & Hws).
        exists f', true. factory_fields.
        rewrite (leb_correct 3 (S (primaryFailCount f)) H3).
        split; [done|]. split; [by unfold kept; split_and!|]. split; [lia|].
        split; [by split|]. split; [done|]. split; [|done].
        intros _. unfold calm. destruct Hc as [?|?]; [by left|by right; right].
      * eexists _, false. split; [reflexivity|]. factory_fields.
        rewrite (leb_correct_conv (S (primaryFailCount f)) 3) by lia.
        split; [by unfold kept, good; factory_fields; split_and!|]. by split_and!; try lia.
    + rewrite (bool_decide_eq_false_2 _ H0).
      eexists _, false. split; [reflexivity|]. factory_fields.
      split; [by unfold kept, good; factory_fields; split_and!|]. by split_and!; try lia.
  - assert (bool_decide (st = RECONNECTING) && negb (isReconnecting f) = false) as Hb.
    { apply andb_false_iff. destruct (decide (st = RECONNECTING)) as [->|Hne].
      - right. destruct (isReconnecting f); [done|]. by destruct Hn.
      - left. by apply bool_decide_eq_false. }
    rewrite Hb.
    destruct (decide (st = CONNECTED)) as [->|Hc].
    + eexists _, false. split; [reflexivity|]. factory_fields.
      split; [by unfold kept, good; factory_fields; split_and!|]. by split_and!; try lia.
    + eexists _, false. split; [reflexivity|]. factory_fields.
      split; [by unfold kept, good; factory_fields; split_and!|]. split_and!; try done; try lia.
      intros _. split_and!; try done.
      destruct (decide (st = RECONNECTING)) as [->|]; [|done].
      destruct (isReconnecting f); [done|]. by destruct Hn.
Qed.

Lemma handleConnectionError_spec n message f :
  ∃ f' sw, handleConnectionError (createWebSocketManager refused (S n)) message f
           = Some (f', sw)
           ∧ kept f f'
           ∧ switches f' = switches f + (if sw then 1 else 0)
           ∧ forwarded (EvError message) f f' sw.
Proof.
  unfold handleConnectionError, forwarded. factory_fields.
  destruct (decide (currentEndpointIndex f = 0)) as [H0|H0].
  - destruct (decide (_ ∧ _)) as [Hsw|Hsw].
    + destruct (switch_primary n
                  (with_primaryFailCount (S (primaryFailCount f))
                     (Factory.emit (EvError message) f)) H0)
        as (f' & -> & Ht & Ho & Hs & Hrec & Hg & Hc & [r Hout] & Hws).
      exists f', true. factory_fields. split; [done|]. split; [by unfold kept; split_and!|].
      split; [lia|]. exists r. by rewrite Hout, <- app_assoc.
    + eexists _, false. split; [reflexivity|]. factory_fields.
      split; [by unfold kept, good; factory_fields; split_and!|]. split; [lia|done].
  - eexists _, false. split; [reflexivity|]. factory_fields.
    split; [by unfold kept, good; factory_fields; split_and!|]. split; [lia|done].
Qed.

Lemma listener_spec n e f :
  ∃ f' sw, listener (createWebSocketManager refused (S n)) e f = Some (f', sw)
           ∧ kept f f'
           ∧ switches f' = switches f + (if sw then 1 else 0)
           ∧ forwarded e f f' sw.
Proof.
  destruct e as [|data|message|st|]; simpl.
  - eexists _, false. split; [reflexivity|].
    split; [by unfold kept, good; factory_fields; split_and!|].
    simpl. split; [lia|done].
  - eexists _, false. split; [reflexivity|].
    split; [by unfold kept, good; factory_fields; split_and!|].
    simpl. split; [lia|done].
  - apply handleConnectionError_spec.
  - destruct (onStateChange_spec n st f) as (f' & sw & H & Hk & Hs & Hf & _).
    by exists f', sw.
  - eexists _, false. split; [reflexivity|].
    split; [by unfold kept, good; factory_fields; split_and!|].
    simpl. split; [lia|done].
Qed.

Lemma deliver_spec n events f :
  ∃ f', deliver (createWebSocketManager refused (S n)) events f = Some f'
        ∧ kept f f' ∧ out f `prefix_of` out f'.
Proof.
  revert f. induction events as [|e events IH]; intros f; cbn [deliver].
  - exists f. split; [done|]. split; [apply kept_refl|done].
  - destruct (listener_spec n e f) as (f1 & sw & -> & Hk & _ & Hf).
    assert (out f `prefix_of` out f1) as Hp.
    { destruct e as [| | |st|]; simpl in Hf.
      - destruct Hf as [_ ->]. by apply prefix_app_r.
      - destruct Hf as [_ ->]. by apply prefix_app_r.
      - destruct sw; [destruct Hf as [r ->]|rewrite Hf]; by apply prefix_app_r.
      - destruct (triggers st f); [destruct Hf as [_ [r ->]]|destruct Hf as [_ ->]];
          by apply prefix_app_r.
      - destruct Hf as [_ ->]. done. }
    destruct sw.
    + exists f1. by split_and!.
    + destruct (IH f1) as (f' & -> & Hk' & Hp').
      exists f'. split; [done|]. split; [by eapply kept_trans|by etransitivity].
Qed.

Lemma drive_spec n method f :
  ∃ f', drive (createWebSocketManager refused (S n)) method f = Some f'
        ∧ kept f f' ∧ out f `prefix_of` out f'.
Proof.
  unfold drive. destruct (wsManager f) as [s|] eqn:E.
  - destruct (deliver_spec n (emitted (method s))
                (with_wsManager (Some (with_emitted [] (method s))) f))
      as (f' & -> & (H1 & H2 & H3 & H4) & Hp).
    exists f'. split; [done|]. split; [|done].
    unfold kept. split_and!; try done. intros _. apply H4. by eexists.
  - exists f. split; [done|]. split; [apply kept_refl|done].
Qed.

(** [createWebSocketManager] returns with two levels of fuel. *)
Lemma createWebSocketManager_spec n f :
  ∃ f', createWebSocketManager refused (S (S n)) f = Some f'
        ∧ kept f f' ∧ out f `prefix_of` out f' ∧ attached f'.
Proof.
  rewrite createWebSocketManager_S.
  destruct (drive_spec n (λ s, snd (Session.connect refused s))
              (with_wsManager
                 (Some (with_errorListeners true
                          (Session.new (sessionOptions (endpointOf f) (options f))))) f))
    as (f' & -> & (H1 & H2 & H3 & H4) & Hp).
  unfold good in *. factory_fields.
  exists f'. split; [done|].
  assert (attached f') as Ha by (apply H4; by eexists).
  split; [by unfold kept, good; split_and!|]. by split.
Qed.

Lemma factory_step_spec c f :
  ∃ f', step refused c f = Some f' ∧ kept f f' ∧ out f `prefix_of` out f'.
Proof.
  destruct c; simpl; try apply (drive_spec 1).
  - destruct (wsManager f); [by exists f; split_and!; [|apply kept_refl|]|].
    destruct (createWebSocketManager_spec 0 f) as (f' & H & ? & ? & _). by exists f'.
  - destruct (wsManager f); [apply (drive_spec 1)|].
    destruct (createWebSocketManager_spec 0 f) as (f' & H & ? & ? & _). by exists f'.
Qed.



(** Every method of the session emits the events that may replace the
    session last: the listeners run on all it emits. *)
Lemma method_switchLast c method s :
  sessionMethod refused c = Some method → emitted s = [] →
  switchLast (emitted (method s)) = true.
Proof.
  intros Hm He. destruct s. simpl in He. subst.
  destruct c as [|data r| | |[k|k data|k message|k random|]]; simpl in Hm; simplify_eq;
    unfold react, onOpen, onMessage, onError, onClose, onTimer, attemptReconnect,
      Session.disconnect, Session.send, Session.connect, handleError, cleanUp, setState,
      Session.emit; simpl;
    repeat (first [case_decide | case_match]; simpl in *; simplify_eq); try done.
Qed.

Lemma listener_may create e f f1 :
  listener create e f = Some (f1, true) → mayTrigger e = true.
Proof.
  destruct e as [| | |st|]; simpl; try done.
  unfold onStateChange.
  destruct (decide (st = RECONNECTING ∧ _)) as [[-> _]|]; [done|].
  by repeat case_decide.
Qed.

Lemma deliver_relay create events f :
  switchLast events = true → deliver create events f = relay create events f.
Proof.
  revert f. induction events as [|e rest IH]; intros f Hl; simpl in *; [done|].
  apply andb_true_iff in Hl as [Hlast Hrest].
  destruct (listener create e f) as [[f1 [|]]|] eqn:E; [|by apply IH|done].
  apply listener_may in E. rewrite E in Hlast. simpl in Hlast.
  apply bool_decide_eq_true in Hlast as ->. done.
Qed.




End WithEnvironment.
End FactoryFacts.

Import Factory FactorySpec.




(** C4, as the design document has it, fails: after two errors on the
    primary, the close event makes the session emit
    [state_change(reconnecting)]; the factory switches on it and does not
    emit it. *)
Lemma C4_switching_transition_dropped :
  let refused := λ _ : string, None in
  let o := {| Session.opt_url := ""; Session.opt_initialBackoff := None;
              Session.opt_maxBackoff := None; Session.opt_maxRetries := None;
              Session.opt_debug := None |} in
  ∃ f0 f2 s f3,
    Factory.new refused ["wss://p1"; "wss://p2"] o = Returned (Some f0)
    ∧ run refused [FromSession (Session.SocketError 0 "timeout");
                   FromSession (Session.SocketError 0 "timeout")] f0 = Some f2
    ∧ wsManager f2 = Some s
    ∧ Session.emitted (Session.react refused (Session.SocketClose 0 (1 # 2)) s)
      = [Session.EvStateChange Session.RECONNECTING]
    ∧ step refused (FromSession (Session.SocketClose 0 (1 # 2))) f2 = Some f3
    ∧ out f3 = out f2 ++ [Session.EvStateChange Session.CONNECTING]
    ∧ switches f3 = 1.
Proof.
  eexists _, _, _, _. split; [vm_compute; reflexivity|].
  split; [vm_compute; reflexivity|]. split; [reflexivity|].
  split; [vm_compute; reflexivity|]. split; [vm_compute; reflexivity|].
  by split.
Qed.

(** C4, amended.  Whatever the session emits during a call reaches the
    listeners of the factory, every event and in order.  Each listener
    returns, and what it adds to the events of the factory is, for [open],
    [message] and [error], the event itself (followed, when the error
    makes the factory switch, by what the new session emits on
    connecting); for a [state_change], the event itself unless it is the
    counted [RECONNECTING] that makes the factory switch: that one is not
    emitted, only what the new session emits on connecting is. *)
Theorem C4_forwarding (socketRefused : string -> option string)
    (f : WebSocketManagerFactory) (c : Call)
    (method : Session.WebSocketManager -> Session.WebSocketManager)
    (s : Session.WebSocketManager) :
  sessionMethod socketRefused c = Some method →
  wsManager f = Some s → Session.emitted s = [] →
  (∃ f', step socketRefused c f = Some f'
         ∧ relay (createWebSocketManager socketRefused fuel)
                 (Session.emitted (method s))
                 (with_wsManager (Some (Session.with_emitted [] (method s))) f)
           = Some f')
  ∧ ∀ e g, ∃ g' switched,
      listener (createWebSocketManager socketRefused fuel) e g = Some (g', switched)
      ∧ forwarded e g g' switched
      ∧ match e with
        | Session.EvOpen | Session.EvMessage _ | Session.EvError _ =>
            out g ++ [e] `prefix_of` out g'
        | Session.EvStateChange st =>
            if triggers st g
            then st = Session.RECONNECTING ∧ switches g' = S (switches g)
                 ∧ e ∉ drop (length (out g)) (out g')
            else out g' = out g ++ [e] ∧ switches g' = switches g
        | Session.EvMaxRetriesReached => out g' = out g
        end.
Proof.
  intros Hmethod Hs Hclean. split.
  - destruct (FactoryFacts.factory_step_spec socketRefused c f) as (f' & Hstep & _).
    exists f'. split; [exact Hstep|]. rewrite <- Hstep.
    rewrite <- (FactoryFacts.deliver_relay _ _ _
                  (FactoryFacts.method_switchLast socketRefused c method s Hmethod Hclean)).
    destruct c; simpl in Hmethod; simplify_eq; simpl; unfold drive; by rewrite Hs.
  - intros e g.
    destruct (FactoryFacts.listener_spec socketRefused 1 e g)
      as (g' & sw & Hl & _ & Hsw & Hf).
    exists g', sw. split; [exact Hl|]. split; [exact Hf|].
    destruct e as [|data|message|st|]; simpl in Hf.
    + destruct Hf as [_ ->]. done.
    + destruct Hf as [_ ->]. done.
    + destruct sw; [destruct Hf as [r ->]|rewrite Hf; done].
      apply prefix_app, prefix_cons, prefix_nil.
    + destruct (triggers st g) eqn:Ht.
      * destruct Hf as [-> [r Hout]].
        assert (st = Session.RECONNECTING) as ->.
        { unfold triggers in Ht.
          by repeat (apply andb_true_iff in Ht as [Ht _]); apply bool_decide_eq_true in Ht. }
        split; [done|]. split; [lia|].
        rewrite Hout, drop_app_length.
        destruct r; simpl; rewrite !not_elem_of_cons; split_and!;
          try discriminate; apply not_elem_of_nil.
      * destruct Hf as [-> ->]. split; [done|lia].
    + by destruct Hf as [_ ->].
Qed.

Lemma C4_forwarding_witness :
  let refused := λ _ : string, None in
  let c := FromSession (Session.SocketClose 0 (1 # 2)) in
  ∃ f s, exampleFactory = Some f ∧ wsManager f = Some s ∧ Session.emitted s = []
         ∧ ∃ f', step refused c f = Some f'
                 ∧ out f' = out f ++ [Session.EvStateChange Session.RECONNECTING].
Proof.
  intros refused c.
  eexists _, _. split; [vm_compute; reflexivity|].
  split; [reflexivity|]. split; [reflexivity|].
  match goal with
  | |- ∃ f', step _ _ ?f = Some f' ∧ _ =>
      match eval cbn in (wsManager f) with
      | Some ?s =>
          destruct (C4_forwarding refused f c
                      (Session.react refused (Session.SocketClose 0 (1 # 2))) s
                      eq_refl eq_refl eq_refl) as [(f' & Hstep & _) _]
      end
  end.
  exists f'. split; [exact Hstep|].
  vm_compute in Hstep. by simplify_eq.
Defined.

(** ** The request pool *)
Module PoolFacts.
Import Pool PoolSpec.

Ltac pool_fields :=
  cbn [httpsEndpoints currentEndpointIndex connection state defaultCommitment debug
       retryDelay maxRetries currentRetries healthCheckIntervalId healthCheckInterval
       lastTimeUsed failedEndpoints probes retryTimers emitted
       with_currentEndpointIndex with_connection with_state with_currentRetries
       with_healthCheckIntervalId with_lastTimeUsed with_failedEndpoints with_probes
       with_retryTimers with_emitted Pool.emit] in *.

Section WithEnvironment.
Variable refused : string -> option string.

Lemma sound_same m m' : same m m' → sound refused m → sound refused m'.
Proof.
  intros (H1 & H2 & H3 & H4 & H5). unfold sound, good, wellBuilt.
  by rewrite H1, H2, H3, H4, H5.
Qed.

Lemma pool_setState_same st m : same m (setState st m).
Proof. unfold setState. by case_decide. Qed.

Lemma setState_retries st m : currentRetries (setState st m) = currentRetries m.
Proof. unfold setState. by case_decide. Qed.

Lemma connect_S n m :
  connect refused (S n) m
  = let m1 := setState CONNECTING m in
    match httpsEndpoints m1 !! currentEndpointIndex m1 with
    | Some endpoint =>
        match refused endpoint with
        | None =>
            let c := {| rpcEndpoint := endpoint; commitment := defaultCommitment m1 |} in
            Some (with_probes (probes m1 ++ [endpoint]) (with_connection (Some c) m1))
        | Some message => handleConnectionFailure (connect refused n) message m1
        end
    | None => handleConnectionFailure (connect refused n) "Unknown connection error" m1
    end.
Proof. reflexivity. Qed.

(** With retries left, a failure is answered by a retry timer. *)
Lemma failure_retries conn message m :
  currentRetries m < maxRetries m → sound refused m →
  ∃ m', handleConnectionFailure conn message m = Some m'
        ∧ sound refused m' ∧ httpsEndpoints m' = httpsEndpoints m.
Proof.
  intros Hr Hs. unfold handleConnectionFailure. pool_fields.
  rewrite setState_retries.
  destruct (pool_setState_same FAILED m) as (H1 & H2 & H3 & H4 & H5).
  rewrite H5. rewrite decide_True by done.
  eexists. split; [reflexivity|]. split; [|done].
  eapply sound_same; [|exact Hs]. by unfold same; pool_fields.
Qed.

(** With retries left, [connect] does not nest. *)
Lemma connect_retries n m :
  currentRetries m < maxRetries m → sound refused m →
  ∃ m', connect refused (S n) m = Some m'
        ∧ sound refused m' ∧ httpsEndpoints m' = httpsEndpoints m.
Proof.
  intros Hr Hs. rewrite connect_S. cbv zeta.
  pose proof (pool_setState_same CONNECTING m) as Hsame.
  pose proof (sound_same _ _ Hsame Hs) as Hs1.
  destruct Hsame as (H1 & H2 & H3 & H4 & H5).
  assert (currentRetries (setState CONNECTING m) < maxRetries (setState CONNECTING m))
    as Hr1 by (by rewrite setState_retries, H5).
  destruct (httpsEndpoints _ !! _) as [endpoint|] eqn:E.
  - destruct (refused endpoint) as [message|] eqn:Er.
    + destruct (failure_retries (connect refused n) message _ Hr1 Hs1)
        as (m' & -> & ? & ?).
      exists m'. split; [done|]. split; [done|congruence].
    + eexists. split; [reflexivity|]. pool_fields. split; [|done].
      destruct Hs1 as (Hg & Hm & _). split; [done|]. split; [done|].
      unfold wellBuilt. pool_fields. exists endpoint.
      split; [by eapply list_elem_of_lookup_2|done].
  - destruct (failure_retries (connect refused n) "Unknown connection error" _ Hr1 Hs1)
      as (m' & -> & ? & ?).
    exists m'. split; [done|]. split; [done|congruence].
Qed.

Lemma failure_spec n message m :
  sound refused m →
  ∃ m', handleConnectionFailure (connect refused (S n)) message m = Some m'
        ∧ sound refused m' ∧ httpsEndpoints m' = httpsEndpoints m.
Proof.
  intros Hs.
  destruct (decide (currentRetries m < maxRetries m)) as [Hr|Hr];
    [by apply failure_retries|].
  unfold handleConnectionFailure. pool_fields.
  rewrite setState_retries.
  pose proof (pool_setState_same FAILED m) as Hsame.
  destruct (Hsame) as (H1 & H2 & H3 & H4 & H5).
  rewrite H5. rewrite decide_False by done.
  unfold switchEndpoint. pool_fields.
  destruct (Rotation.advance _ _ _) as [[failed next] cleared] eqn:E.
  set (g := with_currentEndpointIndex _ _).
  assert (sound refused g ∧ httpsEndpoints g = httpsEndpoints m
          ∧ currentRetries g = 0 ∧ maxRetries g = maxRetries m) as (Hg & Ht & H0 & Hm).
  { pose proof (pool_setState_same SWITCHING
                  (with_currentRetries 0
                     (Pool.emit (EvConnectionFailure message) (setState FAILED m))))
      as (G1 & G2 & G3 & G4 & G5).
    pool_fields. unfold g. pool_fields. rewrite setState_retries. pool_fields.
    rewrite G1, G5, H1, H5. split; [|done].
    destruct Hs as ((Hlen & Hidx) & Hmax & Hwb).
    unfold sound, good, wellBuilt. pool_fields. rewrite G1, G3, G4, G5, H1, H3, H4, H5.
    split_and!; try done.
    rewrite H1, H2 in E.
    destruct (RotationFacts.advance_spec (length (httpsEndpoints m))
                (failedEndpoints (setState FAILED m)) (currentEndpointIndex m))
      as (? & ? & ? & E' & Hlt & _); [done..|].
    rewrite E in E'. by simplify_eq. }
  destruct (connect_retries n g) as (m' & -> & ? & ?); [destruct Hg; lia|done|].
  exists m'. split; [done|]. split; [done|congruence].
Qed.

(** [connect] returns with two levels of fuel. *)
Lemma connect_spec n m :
  sound refused m →
  ∃ m', connect refused (S (S n)) m = Some m'
        ∧ sound refused m' ∧ httpsEndpoints m' = httpsEndpoints m.
Proof.
  intros Hs. rewrite connect_S. cbv zeta.
  pose proof (pool_setState_same CONNECTING m) as Hsame.
  pose proof (sound_same _ _ Hsame Hs) as Hs1.
  destruct Hsame as (H1 & H2 & H3 & H4 & H5).
  destruct (httpsEndpoints _ !! _) as [endpoint|] eqn:E.
  - destruct (refused endpoint) as [message|] eqn:Er.
    + destruct (failure_spec n message _ Hs1) as (m' & -> & ? & ?).
      exists m'. split; [done|]. split; [done|congruence].
    + eexists. split; [reflexivity|]. pool_fields. split; [|done].
      destruct Hs1 as (Hg & Hm & _). split; [done|]. split; [done|].
      unfold wellBuilt. pool_fields. exists endpoint.
      split; [by eapply list_elem_of_lookup_2|done].
  - destruct (failure_spec n "Unknown connection error" _ Hs1) as (m' & -> & ? & ?).
    exists m'. split; [done|]. split; [done|congruence].
Qed.

Lemma pool_step_spec c m :
  sound refused m →
  ∃ m', step refused c m = Some m' ∧ sound refused m'
        ∧ httpsEndpoints m' = httpsEndpoints m.
Proof.
  intros Hs. destruct c as [now| |i healthy| |now healthy]; cbn [step].
  - unfold getConnection. pool_fields.
    destruct (connection m) as [c|] eqn:E.
    + eexists. split; [reflexivity|]. split; [|done].
      eapply sound_same; [|exact Hs]. by unfold same.
    + destruct (connect_spec 0 (with_lastTimeUsed now m)) as (m' & Hm' & ? & ?).
      { eapply sound_same; [|exact Hs]. by unfold same. }
      unfold fuel. rewrite Hm'. by exists m'.
  - eexists. split; [reflexivity|]. split; [|done].
    eapply sound_same; [|exact Hs]. by unfold same.
  - destruct (probes m !! i) as [endpoint|]; [|by exists m].
    assert (sound refused (with_probes (delete i (probes m)) m)) as Hs1.
    { eapply sound_same; [|exact Hs]. by unfold same. }
    destruct healthy.
    + eexists. split; [reflexivity|]. pool_fields. split.
      * eapply sound_same; [|exact Hs1].
        destruct (pool_setState_same CONNECTED (with_probes (delete i (probes m)) m))
          as (?&?&?&?&?). by unfold same; pool_fields.
      * by destruct (pool_setState_same CONNECTED (with_probes (delete i (probes m)) m))
          as (?&?&?&?&?).
    + destruct (failure_spec 1 ("Failed to connect to " ++ endpoint) _ Hs1)
        as (m' & Hm' & ? & ?).
      exists m'. by split.
  - destruct (retryTimers m) as [|k]; [by exists m|].
    destruct (connect_spec 0 (with_retryTimers k m)) as (m' & Hm' & ? & ?).
    { eapply sound_same; [|exact Hs]. by unfold same. }
    exists m'. by split.
  - destruct (healthCheckIntervalId m); [|by exists m].
    destruct (negb _); [by exists m|].
    destruct (failure_spec 1 "Health check failed" m Hs) as (m' & Hm' & ? & ?).
    destruct (connection m); [destruct healthy; [by exists m|]|]; exists m'; by split.
Qed.

Lemma pool_new_spec config now :
  cfg_httpsEndpoints config ≠ [] →
  ∃ m, Pool.new refused config now = Returned (Some m) ∧ sound refused m
       ∧ httpsEndpoints m = cfg_httpsEndpoints config.
Proof.
  intros Hne. unfold Pool.new. pool_fields.
  destruct (cfg_httpsEndpoints config) as [|e endpoints] eqn:E; [done|].
  set (m0 := Build_ConnectionManager _ _ _ _ _ _ _ _ _ _ _ _ _ _ _ _).
  destruct (connect_spec 0 m0) as (m' & Hm' & Hs' & Ht').
  { unfold sound, good, wellBuilt, m0. pool_fields. simpl. split_and!; try done; try lia.
    unfold orDefaultNat. destruct (cfg_maxRetries config) as [[|k]|]; lia. }
  unfold fuel. rewrite Hm'. eexists. split; [reflexivity|]. split; [|done].
  eapply sound_same; [|exact Hs']. by unfold same.
Qed.

Lemma reachable_sound m : reachable refused m → sound refused m.
Proof.
  induction 1 as [config now m Hnew|c m m' _ IH Hstep].
  - destruct (decide (cfg_httpsEndpoints config = [])) as [He|He].
    { unfold Pool.new in Hnew. pool_fields. by rewrite He in Hnew. }
    destruct (pool_new_spec config now He) as (m' & Hm' & ? & _).
    rewrite Hm' in Hnew. by simplify_eq.
  - destruct (pool_step_spec c m IH) as (m'' & Hm'' & ? & _).
    rewrite Hm'' in Hstep. by simplify_eq.
Qed.

End WithEnvironment.
End PoolFacts.

(** C9.  In every state a pool can reach, [getConnection()] returns at
    once, in one of two ways.  Either it hands out the client the pool
    holds, which is the finished result of [new Connection] for an
    endpoint of the table, and changes nothing but the time of last use.
    Or the pool holds no client: it calls [connect()] and throws
    "Connection not ready yet". *)
Theorem C9_getConnection (connectionRefused : string -> option string)
    (now : Q) (m : Pool.ConnectionManager) :
  PoolSpec.reachable connectionRefused m →
  ∃ r m', Pool.getConnection connectionRefused now m = Some (r, m')
    ∧ match r with
      | Returned c =>
          Pool.connection m = Some c
          ∧ m' = Pool.with_lastTimeUsed now m
          ∧ ∃ endpoint, endpoint ∈ Pool.httpsEndpoints m
                        ∧ connectionRefused endpoint = None
                        ∧ c = {| Pool.rpcEndpoint := endpoint;
                                 Pool.commitment := Pool.defaultCommitment m |}
      | Thrown message =>
          Pool.connection m = None
          ∧ message = "Connection not ready yet"%string
          ∧ Pool.connect connectionRefused Pool.fuel (Pool.with_lastTimeUsed now m) = Some m'
      end.
Proof.
  intros Hreach. pose proof (PoolFacts.reachable_sound _ _ Hreach) as Hs.
  unfold Pool.getConnection. cbn [Pool.connection Pool.with_lastTimeUsed].
  destruct (Pool.connection m) as [c|] eqn:E.
  - exists (Returned c), (Pool.with_lastTimeUsed now m). split; [done|].
    split; [done|]. split; [done|].
    destruct Hs as (_ & _ & Hwb). unfold PoolSpec.wellBuilt in Hwb. by rewrite E in Hwb.
  - destruct (PoolFacts.connect_spec connectionRefused 0 (Pool.with_lastTimeUsed now m))
      as (m' & Hm' & _).
    { eapply PoolFacts.sound_same; [|exact Hs]. by unfold PoolSpec.same. }
    unfold Pool.fuel. rewrite Hm'. simpl.
    exists (Thrown "Connection not ready yet"), m'. by split_and!.
Qed.

Lemma C9_getConnection_witness :
  ∃ m, PoolSpec.examplePool = Some m
       ∧ PoolSpec.reachable (λ _, None) m
       ∧ ∃ m', Pool.getConnection (λ _, None) 10 m
               = Some (Returned {| Pool.rpcEndpoint := "https://p1";
                                   Pool.commitment := "confirmed" |}, m').
Proof.
  eexists. split; [vm_compute; reflexivity|].
  match goal with |- PoolSpec.reachable _ ?m ∧ _ => set (m0 := m) end.
  assert (PoolSpec.reachable (λ _, None) m0) as Hreach.
  { eapply PoolSpec.reachable_new with
      (config := {| Pool.cfg_httpsEndpoints := ["https://p1"; "https://p2"];
                    Pool.cfg_defaultCommitment := None; Pool.cfg_debug := None;
                    Pool.cfg_retryDelay := None; Pool.cfg_maxRetries := None;
                    Pool.cfg_healthCheckInterval := None |}) (now := 0%Q).
    vm_compute. reflexivity. }
  split; [exact Hreach|].
  destruct (C9_getConnection (λ _, None) 10 m0 Hreach) as (r & m' & Hget & Hr).
  exists m'. rewrite Hget. destruct r as [c|message].
  - destruct Hr as (Hc & _). vm_compute in Hc. by simplify_eq.
  - destruct Hr as (Hc & _). vm_compute in Hc. discriminate.
Defined.



(** C1.  A switch marks the current index failed.  If the failed set then
    covers every index it is cleared, and the successor of the current
    index is selected; otherwise the first index after the current one,
    walking forward circularly, that is not failed is selected.  Either
    way the selected index lies in the table and becomes the current
    index, in the factory and in the pool alike.  With three endpoints
    A, B, C: from A the switch selects B, from B (A failed) it selects C,
    and from C (A and B failed) it clears the failed set and selects A. *)
Theorem C1_switch_selection (len : nat) (failed : gset nat) (current : nat) :
  0 < len → current < len → (∀ i, i ∈ failed → i < len) →
  ∃ failed' next cleared,
    Rotation.advance len failed current = (failed', next, cleared)
    ∧ next < len
    ∧ (cleared = true ↔ ∀ i, i < len → i ∈ {[current]} ∪ failed)
    ∧ (cleared = true → failed' = ∅ ∧ next = (current + 1) mod len)
    ∧ (cleared = false →
         failed' = {[current]} ∪ failed ∧ (next ∉ failed')
         ∧ ∃ k, k < len ∧ next = (current + 1 + k) mod len
                ∧ ∀ k', k' < k → (current + 1 + k') mod len ∈ failed')
    ∧ (∀ f, length (wssEndpoints f) = len → failedEndpoints f = failed →
            currentEndpointIndex f = current →
            ∃ f', switchEndpoint Some f = Some f'
                  ∧ failedEndpoints f' = failed' ∧ currentEndpointIndex f' = next
                  ∧ getCurrentEndpoint f' = wssEndpoints f !! next
                  ∧ is_Some (getCurrentEndpoint f'))
    ∧ (∀ m, length (Pool.httpsEndpoints m) = len → Pool.failedEndpoints m = failed →
            Pool.currentEndpointIndex m = current →
            ∃ m', Pool.switchEndpoint Some m = Some m'
                  ∧ Pool.failedEndpoints m' = failed' ∧ Pool.currentEndpointIndex m' = next
                  ∧ Pool.getCurrentEndpoint m' = Pool.httpsEndpoints m !! next
                  ∧ is_Some (Pool.getCurrentEndpoint m'))
    ∧ Rotation.advance 3 ∅ 0 = ({[0]}, 1, false)
    ∧ Rotation.advance 3 {[0]} 1 = ({[0; 1]}, 2, false)
    ∧ Rotation.advance 3 {[0; 1]} 2 = (∅, 0, true).
Proof.
  intros Hlen Hcur Hrange.
  destruct (RotationFacts.advance_spec len failed current Hlen Hcur)
    as (failed' & next & cleared & E & Hlt & Hc & Hclr & Hwalk).
  exists failed', next, cleared. split_and!; try done.
  - rewrite Hc. apply RotationFacts.size_covers.
    intros i [->%elem_of_singleton|Hi]%elem_of_union; [done|by apply Hrange].
  - intros f Hl Hf Hi. unfold switchEndpoint. rewrite Hl, Hf, Hi, E.
    eexists. split; [reflexivity|].
    unfold getCurrentEndpoint.
    destruct cleared; simpl; (split_and!; [done..|by apply lookup_lt_is_Some_2; lia]).
  - intros m Hl Hf Hi. unfold Pool.switchEndpoint. rewrite Hl, Hf, Hi, E.
    eexists. split; [reflexivity|].
    destruct (PoolFacts.pool_setState_same Pool.SWITCHING m) as (Ht & _).
    unfold Pool.getCurrentEndpoint. simpl. rewrite Ht.
    split_and!; [done..|by apply lookup_lt_is_Some_2; lia].
Qed.

Lemma C1_switch_selection_witness :
  (0 < 3 ∧ 1 < 3 ∧ ∀ i, i ∈ ({[0]} : gset nat) → i < 3)
  ∧ ∃ failed', Rotation.advance 3 {[0]} 1 = (failed', 2, false) ∧ (2 ∉ failed').
Proof.
  assert (∀ i, i ∈ ({[0]} : gset nat) → i < 3) as Hrange.
  { intros i ->%elem_of_singleton. lia. }
  split; [split_and!; [lia|lia|exact Hrange]|].
  destruct (C1_switch_selection 3 {[0]} 1 ltac:(lia) ltac:(lia) Hrange)
    as (failed' & next & cleared & E & _ & _ & _ & Hwalk & _ & _ & _ & E' & _).
  rewrite E' in E. simplify_eq. eexists. split; [reflexivity|].
  by destruct (Hwalk eq_refl) as (_ & Hnot & _).
Defined.

(** * Further properties *)

(** ** The session under calls and events *)
Module SessionCallsFacts.
Import Session SessionSpec SessionCalls.

Lemma setState_fields st s :
  ws (setState st s) = ws s ∧ retryCount (setState st s) = retryCount s
  ∧ maxRetries (setState st s) = maxRetries s
  ∧ reconnectTimer (setState st s) = reconnectTimer s
  ∧ listening (setState st s) = listening s
  ∧ nextSocket (setState st s) = nextSocket s
  ∧ url (setState st s) = url s.
Proof. unfold setState. by case_decide. Qed.

Lemma cleanUp_fields s :
  retryCount (cleanUp s) = retryCount s ∧ maxRetries (cleanUp s) = maxRetries s
  ∧ url (cleanUp s) = url s ∧ nextSocket (cleanUp s) = nextSocket s
  ∧ listening (cleanUp s) = match ws s with Some k => listening s ∖ {[k]} | None => listening s end.
Proof. unfold cleanUp. simpl. destruct (ws s) eqn:E; simpl; rewrite ?E; done. Qed.

Lemma limited_setState lim st s : limited lim s → limited lim (setState st s).
Proof.
  unfold limited, withinLimit.
  destruct (setState_fields st s) as (_ & -> & -> & _). done.
Qed.

Lemma limited_cleanUp lim s : limited lim s → limited lim (cleanUp s).
Proof.
  unfold limited, withinLimit.
  destruct (cleanUp_fields s) as (-> & -> & _). done.
Qed.

Lemma limited_connect refused lim s : limited lim s → limited lim (snd (connect refused s)).
Proof.
  intros H. unfold connect. case_decide; [done|].
  pose proof (limited_setState lim CONNECTING s H) as H1.
  destruct (refused _); simpl; [|done].
  by apply limited_setState.
Qed.

Lemma limited_perform refused lim op s :
  limited lim s → limited lim (perform refused op s).
Proof.
  intros H. destruct op as [[k|k data|k message|k random|]| |data r|]; simpl.
  - case_decide; [|done]. unfold onOpen.
    pose proof (limited_setState lim CONNECTED s H) as [Hm _].
    split; [done|]. unfold withinLimit. simpl. rewrite Hm. destruct lim; [lia|done].
  - by case_decide.
  - case_decide; [|done]. unfold onError, handleError. simpl. by apply limited_setState.
  - case_decide; [|done]. unfold onClose.
    pose proof (limited_cleanUp lim s H) as Hc.
    case_decide; [|done]. unfold attemptReconnect.
    destruct (reached _ _) eqn:Er; [by apply (limited_setState lim DISCONNECTED)|].
    destruct Hc as [Hcm Hcw]. rewrite Hcm in Er.
    destruct (setState_fields RECONNECTING (cleanUp s)) as (_ & Hr & Hm' & _).
    split; [simpl; congruence|]. unfold withinLimit. simpl. rewrite Hm', Hcm, Hr.
    destruct lim as [n|]; [|done]. simpl in Er. apply Nat.leb_gt in Er. lia.
  - destruct (reconnectTimer s); [|done]. unfold onTimer.
    assert (limited lim (with_reconnectTimer None s)) as H0 by done.
    pose proof (limited_connect refused lim _ H0) as H1.
    by destruct (connect refused _) as [[] s1].
  - by apply limited_connect.
  - unfold send. case_decide; [done|]. destruct r; simpl; [|done].
    by apply limited_setState.
  - unfold disconnect. simpl. by apply limited_setState, limited_cleanUp.
Qed.

Lemma limited_new o : limited (maxRetries (new o)) (new o).
Proof.
  split; [done|]. unfold withinLimit. destruct (maxRetries (new o)); simpl; [lia|done].
Qed.


Lemma limited_performAll refused lim ops s :
  limited lim s → limited lim (performAll refused ops s).
Proof.
  unfold performAll. revert s. induction ops as [|op ops IH]; intros s H; simpl; [done|].
  by apply IH, limited_perform.
Qed.

(** ** One socket at a time *)

Lemma tidy_setState st s : tidy s → tidy (setState st s).
Proof.
  unfold tidy. destruct (setState_fields st s) as (-> & _ & _ & -> & -> & _). done.
Qed.

Lemma tidy_cleanUp s : tidy s → tidy (cleanUp s) ∧ ws (cleanUp s) = None.
Proof.
  intros [Hl _]. unfold tidy, cleanUp. simpl.
  destruct (ws s) as [k|] eqn:E; simpl; rewrite ?E; (split; [split|]); try done.
  rewrite Hl. apply difference_diag_L.
Qed.

Lemma tidy_connect refused s :
  tidy s → ws s = None → reconnectTimer s = None → tidy (snd (connect refused s)).
Proof.
  intros Ht Hws Htimer. unfold connect. case_decide; [done|].
  pose proof (tidy_setState CONNECTING s Ht) as [Hl Hp].
  destruct (setState_fields CONNECTING s) as (Hw & _ & _ & Hti & _).
  destruct (refused _); simpl.
  - by apply tidy_setState.
  - unfold tidy. simpl. split.
    + rewrite Hl, Hw, Hws. apply union_empty_r_L.
    + rewrite Hti, Htimer. by intros [? ?].
Qed.

Lemma tidy_perform refused op s :
  isConnect op = false → tidy s → tidy (perform refused op s).
Proof.
  intros Hop Ht. destruct op as [[k|k data|k message|k random|]| |data r|]; simpl;
    try discriminate.
  - case_decide; [|done]. unfold onOpen.
    pose proof (tidy_setState CONNECTED s Ht) as Hx. by unfold tidy in *.
  - case_decide; [|done]. by unfold tidy in *.
  - case_decide; [|done]. unfold onError, handleError. simpl.
    pose proof (tidy_setState ERROR s Ht) as Hx. by unfold tidy in *.
  - case_decide; [|done]. unfold onClose.
    destruct (tidy_cleanUp s Ht) as [Hc Hws].
    case_decide; [|done]. unfold attemptReconnect.
    destruct (reached _ _).
    + pose proof (tidy_setState DISCONNECTED _ Hc) as Hx. by unfold tidy in *.
    + pose proof (tidy_setState RECONNECTING _ Hc) as [Hl _].
      destruct (setState_fields RECONNECTING (cleanUp s)) as (Hw & _).
      unfold tidy. simpl. split; [done|]. intros _. by rewrite Hw.
  - destruct (reconnectTimer s) eqn:Et; [|done]. unfold onTimer.
    destruct Ht as [Hl Hp].
    assert (ws s = None) as Hws by (apply Hp; by rewrite Et).
    assert (tidy (snd (connect refused (with_reconnectTimer None s)))) as Hx.
    { apply tidy_connect; [|done..]. split; [done|]. simpl. by intros [? ?]. }
    destruct (connect refused _) as [[] s1]; simpl in Hx; [|done]. by unfold tidy in *.
  - unfold send. case_decide; [done|]. destruct r; simpl.
    + pose proof (tidy_setState ERROR s Ht) as Hx. by unfold tidy in *.
    + by unfold tidy in *.
  - unfold disconnect. simpl. apply tidy_setState. by apply tidy_cleanUp.
Qed.

Lemma tidy_start refused o : tidy (start refused o).
Proof.
  unfold start. apply tidy_connect; [|done..]. split; [done|]. simpl. by intros [? ?].
Qed.

Lemma tidy_performAll refused ops s :
  forallb (λ op, negb (isConnect op)) ops = true → tidy s →
  tidy (performAll refused ops s).
Proof.
  unfold performAll. revert s. induction ops as [|op ops IH]; intros s Hops H; simpl; [done|].
  simpl in Hops. apply andb_true_iff in Hops as [Hop Hops].
  apply IH; [done|]. apply tidy_perform; [|done]. by destruct (isConnect op).
Qed.

(** ** A url the socket constructor refuses *)

Lemma setState_sent st s : sent (setState st s) = sent s.
Proof. unfold setState. by case_decide. Qed.

Lemma dead_setState refused st s :
  st = DISCONNECTED ∨ st = ERROR → dead refused s → dead refused (setState st s).
Proof.
  intros Hst (Hu & Hw & Hl & Ht & Hs & Hsent). unfold dead.
  destruct (setState_fields st s) as (-> & _ & _ & -> & -> & _ & ->).
  rewrite SessionFacts.setState_state, setState_sent. by split_and!.
Qed.

Lemma dead_connect refused s : dead refused s → dead refused (snd (connect refused s)).
Proof.
  intros Hd. pose proof Hd as ([message Hu] & Hw & Hl & Ht & Hs & Hsent).
  unfold connect. rewrite decide_False by (by destruct Hs as [-> | ->]; intros [?|?]).
  set (s1 := setState CONNECTING s).
  destruct (setState_fields CONNECTING s) as (Hw1 & _ & _ & Ht1 & Hl1 & _ & Hu1).
  fold s1 in Hw1, Ht1, Hl1, Hu1. rewrite Hu1, Hu.
  unfold handleError. cbn [snd].
  set (s2 := setState ERROR s1).
  destruct (setState_fields ERROR s1) as (Hw2 & _ & _ & Ht2 & Hl2 & _ & Hu2).
  fold s2 in Hw2, Ht2, Hl2, Hu2.
  unfold dead. cbn [emit url ws listening reconnectTimer state sent with_emitted].
  rewrite Hu2, Hu1, Hw2, Hw1, Hl2, Hl1, Ht2, Ht1.
  unfold s2. rewrite SessionFacts.setState_state, setState_sent.
  unfold s1. rewrite setState_sent.
  split_and!; first [done | by eexists | by right].
Qed.

Lemma dead_perform refused op s : dead refused s → dead refused (perform refused op s).
Proof.
  intros Hd. pose proof Hd as (Hu & Hw & Hl & Ht & Hs & Hsent).
  destruct op as [[k|k data|k message|k random|]| |data r|]; simpl;
    rewrite ?Hl, ?Ht; try (rewrite decide_False by apply not_elem_of_empty); try done.
  - by apply dead_connect.
  - unfold send. rewrite decide_True; [done|]. by right.
  - unfold disconnect. simpl. apply dead_setState; [by left|].
    by rewrite SessionFacts.cleanUp_nothing.
Qed.

Lemma dead_performAll refused ops s :
  dead refused s → dead refused (performAll refused ops s).
Proof.
  unfold performAll. revert s. induction ops as [|op ops IH]; intros s H; simpl; [done|].
  by apply IH, dead_perform.
Qed.

End SessionCallsFacts.

Module BackoffFacts.
Import Session SessionSpec SessionCalls.






End BackoffFacts.

Import Session SessionSpec SessionCalls.

(** X1.  Whatever the environment does and whatever is called, the retry
    counter of a session never passes the configured [maxRetries]. *)
Theorem X1_retry_counter_within_limit (socketRefused : string -> option string)
    (o : WebSocketManagerOptions) (ops : list Op) :
  let s := performAll socketRefused ops (new o) in
  maxRetries s = maxRetries (new o)
  ∧ match maxRetries (new o) with
    | Finite n => retryCount s ≤ n
    | Infinity => True
    end.
Proof.
  destruct (SessionCallsFacts.limited_performAll socketRefused _ ops (new o)
              (SessionCallsFacts.limited_new o)) as [Hm Hw].
  split; [exact Hm|]. unfold withinLimit in Hw. by rewrite Hm in Hw.
Qed.

(** X2.  When the retry counter has reached [maxRetries], a close event
    on a session that was not disconnected ends the retries: the session
    becomes [DISCONNECTED], emits [state_change(disconnected)] and then
    [max_retries_reached], holds no socket and no timer, and no later
    close event or timer callback starts a reconnect. *)
Theorem X2_gives_up_at_limit (socketRefused : string -> option string)
    (s : WebSocketManager) (k : nat) (random : Q) (later : list Input) :
  k ∈ listening s → state s ≠ DISCONNECTED →
  reached (retryCount s) (maxRetries s) = true →
  Forall (λ i, closeOrTimer i = true) later →
  let s' := react socketRefused (SocketClose k random) s in
  getState s' = DISCONNECTED ∧ reconnectTimer s' = None ∧ ws s' = None
  ∧ emitted s' = emitted s ++ [EvStateChange DISCONNECTED; EvMaxRetriesReached]
  ∧ retryCount s' = retryCount s
  ∧ at_rest (run socketRefused later s').
Proof.
  intros Hk Hst Hr Hlater. cbv zeta.
  assert (react socketRefused (SocketClose k random) s
          = emit EvMaxRetriesReached
              (emit (EvStateChange DISCONNECTED) (with_state DISCONNECTED (cleanUp s))))
    as ->.
  { simpl. rewrite decide_True by done. unfold onClose.
    destruct (SessionFacts.cleanUp_spec s) as (_ & _ & Hcs & _ & Hcr & _ & _ & Hcm).
    rewrite decide_True by (by rewrite Hcs).
    unfold attemptReconnect. rewrite Hcr, Hcm, Hr.
    unfold setState. by rewrite decide_False by (by rewrite Hcs). }
  destruct (SessionFacts.cleanUp_spec s) as (Hct & Hcw & _ & Hce & Hcr & _).
  assert (at_rest (emit EvMaxRetriesReached
                     (emit (EvStateChange DISCONNECTED)
                        (with_state DISCONNECTED (cleanUp s))))) as Hrest by (by split).
  split_and!; try done.
  - simpl. by rewrite Hce, <- app_assoc.
  - by apply SessionFacts.run_at_rest.
Qed.

Lemma X2_gives_up_at_limit_witness :
  let refused := λ _ : string, None in
  let s := run refused [SocketClose 0 (1 # 2); TimerFires]
             (start refused {| opt_url := "wss://p1"; opt_initialBackoff := None;
                               opt_maxBackoff := None;
                               opt_maxRetries := Some (Finite 1);
                               opt_debug := None |}) in
  (1 ∈ listening s ∧ getState s = CONNECTING ∧ retryCount s = 1)
  ∧ getState (react refused (SocketClose 1 (1 # 2)) s) = DISCONNECTED
  ∧ reconnectTimer (react refused (SocketClose 1 (1 # 2)) s) = None.
Proof.
  intros refused s.
  assert (1 ∈ listening s) as Hk by (vm_compute; reflexivity).
  assert (state s ≠ DISCONNECTED) as Hst by (vm_compute; discriminate).
  assert (reached (retryCount s) (maxRetries s) = true) as Hr by reflexivity.
  split; [by split_and!|].
  destruct (X2_gives_up_at_limit refused s 1 (1 # 2) [] Hk Hst Hr (List.Forall_nil _))
    as (H1 & H2 & _).
  by split.
Defined.

(** X3.  As long as the owner does not call [connect()] itself, only the
    current socket carries the listeners of the session: an event from
    any other socket (one the session has cleaned up) changes nothing. *)
Theorem X3_stale_socket_ignored (socketRefused : string -> option string)
    (o : WebSocketManagerOptions) (ops : list Op) (i : Input) (k : nat) :
  forallb (λ op, negb (isConnect op)) ops = true →
  socketOf i = Some k →
  let s := performAll socketRefused ops (start socketRefused o) in
  ws s ≠ Some k →
  react socketRefused i s = s.
Proof.
  intros Hops Hi s Hk.
  destruct (SessionCallsFacts.tidy_performAll socketRefused ops _ Hops
              (SessionCallsFacts.tidy_start socketRefused o)) as [Hl _].
  fold s in Hl.
  assert (k ∉ listening s) as Hnot.
  { rewrite Hl. destruct (ws s) as [k'|]; [|apply not_elem_of_empty].
    rewrite elem_of_singleton. congruence. }
  destruct i; simpl in Hi; simplify_eq; simpl; by rewrite decide_False.
Qed.

Lemma X3_stale_socket_ignored_witness :
  let refused := λ _ : string, None in
  let o := {| opt_url := "wss://p1"; opt_initialBackoff := None; opt_maxBackoff := None;
              opt_maxRetries := None; opt_debug := None |} in
  let ops := [Env (SocketClose 0 (1 # 2)); Env TimerFires] in
  let s := performAll refused ops (start refused o) in
  (forallb (λ op, negb (isConnect op)) ops = true ∧ ws s = Some 1)
  ∧ react refused (SocketOpen 0) s = s.
Proof.
  intros refused o ops s. split; [by split|].
  apply (X3_stale_socket_ignored refused o ops (SocketOpen 0) 0); [done..|].
  vm_compute. discriminate.
Defined.

(** X4.  A session whose url the socket constructor refuses never gets a
    socket and never schedules a retry: whatever the environment does and
    whatever is called ([connect()] included), it holds no socket and no
    timer, is [DISCONNECTED] or in [ERROR], and has sent nothing. *)
Theorem X4_refused_url_never_connects (socketRefused : string -> option string)
    (o : WebSocketManagerOptions) (ops : list Op) :
  is_Some (socketRefused (opt_url o)) →
  let s := performAll socketRefused ops (new o) in
  ws s = None ∧ listening s = ∅ ∧ reconnectTimer s = None
  ∧ (getState s = DISCONNECTED ∨ getState s = ERROR)
  ∧ sent s = []
  ∧ getState (snd (connect socketRefused s)) = ERROR.
Proof.
  intros Hu s.
  assert (dead socketRefused (new o)) as Hnew by (by split_and!; [|done..|left|]).
  pose proof (SessionCallsFacts.dead_performAll socketRefused ops _ Hnew) as Hd.
  fold s in Hd. pose proof Hd as ([message Hm] & Hw & Hl & Ht & Hs & Hsent).
  split_and!; try done.
  unfold connect. rewrite decide_False by (by destruct Hs as [-> | ->]; intros [?|?]).
  destruct (SessionCallsFacts.setState_fields CONNECTING s) as (_ & _ & _ & _ & _ & _ & ->).
  rewrite Hm. unfold handleError. simpl. apply SessionFacts.setState_state.
Qed.

Lemma X4_refused_url_never_connects_witness :
  let refused := λ _ : string, Some "Invalid URL"%string in
  let o := {| opt_url := "not a url"; opt_initialBackoff := None; opt_maxBackoff := None;
              opt_maxRetries := None; opt_debug := None |} in
  let s := performAll refused [DoConnect; Env TimerFires; DoConnect; DoSend "ping" None]
             (new o) in
  is_Some (refused (opt_url o))
  ∧ ws s = None ∧ reconnectTimer s = None ∧ sent s = [].
Proof.
  intros refused o s.
  assert (is_Some (refused (opt_url o))) as Hu by (by eexists).
  split; [exact Hu|].
  destruct (X4_refused_url_never_connects refused o
              [DoConnect; Env TimerFires; DoConnect; DoSend "ping" None] Hu)
    as (H1 & _ & H2 & _ & H3 & _).
  by split_and!.
Defined.



(** ** The streaming manager: rotation, session, instance *)
Module FactoryMoreFacts.
Import Session Factory FactorySpec FactoryMore.

Ltac more_fields :=
  cbn [wssEndpoints currentEndpointIndex wsManager options failedEndpoints
       isReconnecting primaryFailCount out switches
       with_currentEndpointIndex with_wsManager with_failedEndpoints
       with_isReconnecting with_primaryFailCount with_out with_switches
       Factory.emit] in *.

Section WithEnvironment.
Variable refused : string -> option string.















(** [disconnect()] of the factory, on a factory that holds a session. *)
Lemma disconnect_step f s :
  wsManager f = Some s → emitted s = [] →
  ∃ f1, step refused CallDisconnect f = Some f1
        ∧ wsManager f1 = Some (with_emitted [] (snd (Session.disconnect s)))
        ∧ out f1 = out f ++ (if decide (state s = DISCONNECTED) then []
                             else [EvStateChange DISCONNECTED])
        ∧ wssEndpoints f1 = wssEndpoints f
        ∧ currentEndpointIndex f1 = currentEndpointIndex f
        ∧ switches f1 = switches f.
Proof.
  intros Hs He. cbn [step]. unfold drive. rewrite Hs.
  assert (emitted (snd (Session.disconnect s))
          = if decide (state s = DISCONNECTED) then []
            else [EvStateChange DISCONNECTED]) as ->.
  { unfold Session.disconnect, setState, cleanUp. destruct s; simpl in *; subst.
    destruct ws0; simpl; by case_decide. }
  destruct (decide (state s = DISCONNECTED)); cbn [deliver listener].
  - eexists. split; [done|]. more_fields. by rewrite app_nil_r.
  - unfold onStateChange. rewrite decide_False by (by intros [? _]).
    rewrite decide_False by done.
    eexists. split; [done|]. more_fields. done.
Qed.

(** On a session at rest a close event or a timer callback emits
    nothing. *)
Lemma react_at_rest_silent i s :
  SessionSpec.closeOrTimer i = true → SessionSpec.at_rest s →
  emitted (react refused i s) = emitted s.
Proof.
  intros Hi [Hst Ht]. destruct i as [| | |k random|]; try done; cbn [react].
  - destruct (decide (k ∈ listening s)); [|done].
    unfold onClose, cleanUp. destruct s; simpl in *; subst.
    by destruct ws0.
  - by rewrite Ht.
Qed.

Lemma stopped_run later f s :
  Forall (λ i, SessionSpec.closeOrTimer i = true) later →
  wsManager f = Some s → emitted s = [] → SessionSpec.at_rest s →
  ∃ f2 s2, run refused (map FromSession later) f = Some f2
           ∧ wsManager f2 = Some s2 ∧ SessionSpec.at_rest s2
           ∧ out f2 = out f
           ∧ currentEndpointIndex f2 = currentEndpointIndex f
           ∧ switches f2 = switches f.
Proof.
  intros Hl. revert f s. induction Hl as [|i later Hi _ IH]; intros f s Hs He Hr.
  - by exists f, s.
  - cbn [map run step]. unfold drive. rewrite Hs.
    rewrite (react_at_rest_silent i s Hi Hr), He. cbn [deliver].
    destruct (IH (with_wsManager (Some (with_emitted [] (react refused i s))) f)
                (with_emitted [] (react refused i s)) eq_refl eq_refl)
      as (f2 & s2 & -> & H2).
    { by apply (SessionFacts.react_at_rest refused i s). }
    by exists f2, s2.
Qed.


End WithEnvironment.
End FactoryMoreFacts.

Import Factory FactorySpec FactoryMore FactoryInstance.





(** X8.  [disconnect()] of the factory stops the stream: the only event
    it emits is [state_change(disconnected)] (nothing if the session was
    disconnected already), and afterwards no close event and no timer
    callback makes the factory emit, switch or reconnect; [send] returns
    false. *)
Theorem X8_disconnect_stops_stream (socketRefused : string -> option string)
    (f : WebSocketManagerFactory) (s : Session.WebSocketManager)
    (later : list Session.Input) (data : string) (r : option string) :
  wsManager f = Some s → Session.emitted s = [] →
  Forall (λ i, SessionSpec.closeOrTimer i = true) later →
  ∃ f1 f2 s2,
    step socketRefused CallDisconnect f = Some f1
    ∧ out f1 = out f ++ (if decide (Session.state s = Session.DISCONNECTED) then []
                         else [Session.EvStateChange Session.DISCONNECTED])
    ∧ run socketRefused (map FromSession later) f1 = Some f2
    ∧ out f2 = out f1
    ∧ switches f2 = switches f
    ∧ currentEndpointIndex f2 = currentEndpointIndex f
    ∧ wsManager f2 = Some s2 ∧ SessionSpec.at_rest s2
    ∧ Factory.send data r f2 = Returned false.
Proof.
  intros Hs He Hl.
  destruct (FactoryMoreFacts.disconnect_step socketRefused f s Hs He)
    as (f1 & Hstep & Hws & Hout & _ & Hidx & Hsw).
  destruct (FactoryMoreFacts.stopped_run socketRefused later f1 _ Hl Hws eq_refl)
    as (f2 & s2 & Hrun & Hws2 & Hrest & Hout2 & Hidx2 & Hsw2).
  { apply (SessionFacts.disconnect_at_rest s). }
  exists f1, f2, s2. split_and!; try done; try congruence.
  unfold Factory.send. rewrite Hws2. unfold Session.send.
  destruct Hrest as [Hst _]. rewrite decide_True; [done|]. left. by rewrite Hst.
Qed.

Lemma X8_disconnect_stops_stream_witness :
  let refused := λ _ : string, None in
  ∃ f s, exampleFactory = Some f ∧ wsManager f = Some s
         ∧ ∃ f1 f2, step refused CallDisconnect f = Some f1
                    ∧ run refused (map FromSession [Session.SocketClose 0 (1 # 2);
                                                    Session.TimerFires]) f1 = Some f2
                    ∧ out f2 = out f ++ [Session.EvStateChange Session.DISCONNECTED].
Proof.
  intros refused.
  eexists _, _. split; [vm_compute; reflexivity|]. split; [reflexivity|].
  match goal with
  | |- ∃ f1 f2, step _ _ ?f = Some f1 ∧ _ =>
      match eval cbn in (wsManager f) with
      | Some ?s =>
          destruct (X8_disconnect_stops_stream refused f s
                      [Session.SocketClose 0 (1 # 2); Session.TimerFires]
                      "" None eq_refl eq_refl)
            as (f1 & f2 & s2 & Hstep & Hout & Hrun & Hout2 & _)
      end
  end.
  { repeat constructor. }
  exists f1, f2. split; [exact Hstep|]. split; [exact Hrun|].
  rewrite Hout2, Hout. reflexivity.
Defined.


